(** * UoH GPA calculator

    A shallow embedding of the two components in
    src/components/ResultModal.tsx, the [ResultModal] overlay and the
    [GPACalculator] that renders it, and of the grade computations the
    calculator imports from [@/utils/gradeCalculations].

    React state is a record, every event handler is a function from a
    state to the next state and the list of effects it emits (toasts,
    timers, the jsPDF calls).  JavaScript numbers are modelled by exact
    rationals: every finite double is one, and the comparisons the
    component makes ([>= 0], [<= 100], [>= 3]) are exact on doubles. *)

From Stdlib Require Import List String Ascii Bool Arith NArith ZArith QArith.
From Stdlib Require Import Lia Lqa DecimalString DecimalNat.
Import ListNotations.

Local Open Scope string_scope.

(** ** Data model *)

Definition number : Type := Q.

(** Modelled from the spec: the [Subject] interface of
    [@/utils/gradeCalculations], which is not part of the sources.  The
    fields are the ones the component reads and writes; the credit hours,
    a positive integer weight chosen from 1..4 in the form's [<select>],
    are a non-negative integer here, so that a total of zero can be
    written down. *)
Record Subject : Type := mkSubject {
  id : string;
  name : string;
  marks : number;
  creditHours : N
}.

(** The value of the [result] state when it is not [null]. *)
Record Result : Type := mkResult {
  gpa : number;
  grade : string;
  remarks : string
}.

(** ** JavaScript string helpers *)

Module Js.

(** A [string] holds the UTF-8 encoding of a JavaScript string: the
    component's own texts are ASCII, names are whatever the user types. *)

(** The code points of [WhiteSpace] and [LineTerminator]: TAB, LF, VT, FF,
    CR, SP, NBSP, U+1680, U+2000 to U+200A, U+2028, U+2029, U+202F, U+205F,
    U+3000 and U+FEFF. *)
Definition whiteSpaceCodePoints : list N :=
  [ 9; 10; 11; 12; 13; 32; 160; 5760;
    8192; 8193; 8194; 8195; 8196; 8197; 8198; 8199; 8200; 8201; 8202;
    8232; 8233; 8239; 8287; 12288; 65279 ]%N.

Definition isWhiteSpace (cp : N) : bool :=
  existsb (N.eqb cp) whiteSpaceCodePoints.

(** The UTF-8 encoding of a code point below U+10000. *)
Definition utf8 (cp : N) : string :=
  if (cp <? 128)%N then String (ascii_of_N cp) ""
  else if (cp <? 2048)%N then
    String (ascii_of_N (192 + cp / 64))
      (String (ascii_of_N (128 + cp mod 64)) "")
  else
    String (ascii_of_N (224 + cp / 4096))
      (String (ascii_of_N (128 + (cp / 64) mod 64))
         (String (ascii_of_N (128 + cp mod 64)) "")).

Fixpoint encode (cps : list N) : string :=
  match cps with
  | [] => ""
  | cp :: rest => utf8 cp ++ encode rest
  end.

(** The payload of a continuation byte. *)
Definition continuation (b : ascii) : option N :=
  let y := N_of_ascii b in
  if ((128 <=? y) && (y <? 192))%N then Some (y - 128)%N else None.

(** The code point a sequence of one, two or three bytes encodes. *)
Definition decode1 (a : ascii) : option N :=
  let x := N_of_ascii a in
  if (x <? 128)%N then Some x else None.

Definition decode2 (a b : ascii) : option N :=
  let x := N_of_ascii a in
  if ((194 <=? x) && (x <? 224))%N then
    match continuation b with
    | Some y => Some ((x - 192) * 64 + y)%N
    | None => None
    end
  else None.

Definition decode3 (a b c : ascii) : option N :=
  let x := N_of_ascii a in
  if ((224 <=? x) && (x <? 240))%N then
    match continuation b, continuation c with
    | Some y, Some z =>
        let cp := ((x - 224) * 4096 + y * 64 + z)%N in
        if (2048 <=? cp)%N then Some cp else None
    | _, _ => None
    end
  else None.

Definition encodesWhiteSpace (d : option N) : bool :=
  match d with
  | Some cp => isWhiteSpace cp
  | None => false
  end.

(** The string without its first character, when that is white space. *)
Definition stripWhiteSpace (s : string) : option string :=
  match s with
  | EmptyString => None
  | String a r1 =>
      if encodesWhiteSpace (decode1 a) then Some r1
      else
        match r1 with
        | EmptyString => None
        | String b r2 =>
            if encodesWhiteSpace (decode2 a b) then Some r2
            else
              match r2 with
              | EmptyString => None
              | String c r3 =>
                  if encodesWhiteSpace (decode3 a b c) then Some r3
                  else None
              end
        end
  end.

Fixpoint trimStart (s : string) : string :=
  match s with
  | EmptyString => EmptyString
  | String a r1 =>
      if encodesWhiteSpace (decode1 a) then trimStart r1
      else
        match r1 with
        | EmptyString => s
        | String b r2 =>
            if encodesWhiteSpace (decode2 a b) then trimStart r2
            else
              match r2 with
              | EmptyString => s
              | String c r3 =>
                  if encodesWhiteSpace (decode3 a b c) then trimStart r3
                  else s
              end
        end
  end.

(** The string is made of white space only. *)
Fixpoint allWhiteSpace (s : string) : bool :=
  match s with
  | EmptyString => true
  | String a r1 =>
      if encodesWhiteSpace (decode1 a) then allWhiteSpace r1
      else
        match r1 with
        | EmptyString => false
        | String b r2 =>
            if encodesWhiteSpace (decode2 a b) then allWhiteSpace r2
            else
              match r2 with
              | EmptyString => false
              | String c r3 =>
                  if encodesWhiteSpace (decode3 a b c) then allWhiteSpace r3
                  else false
              end
        end
  end.

(** The string up to where only white space follows. *)
Fixpoint trimEnd (s : string) : string :=
  match s with
  | EmptyString => EmptyString
  | String c s' =>
      if allWhiteSpace s then EmptyString else String c (trimEnd s')
  end.

(** [String.prototype.trim] *)
Definition trim (s : string) : string := trimEnd (trimStart s).

(** [s !== ''] *)
Definition nonEmpty (s : string) : bool :=
  match s with
  | EmptyString => false
  | String _ _ => true
  end.

(** [n.toString()] for a non-negative integer. *)
Definition natToString (n : nat) : string :=
  NilZero.string_of_uint (Nat.to_uint n).

Definition NToString (n : N) : string :=
  NilZero.string_of_uint (N.to_uint n).

Definition digitChar (d : Z) : ascii := ascii_of_nat (48 + Z.to_nat d).

(** The last [f] decimal digits of [r], most significant first. *)
Fixpoint fractionDigits (f : nat) (r : Z) : string :=
  match f with
  | O => ""
  | S f' => fractionDigits f' (r / 10) ++ String (digitChar (r mod 10)) ""
  end.

(** The integer [n] for which [n / 10^f - x] is closest to zero, the
    larger one when there are two, for [x >= 0]. *)
Definition scaledNearest (f : nat) (x : Q) : Z :=
  (2 * Qnum x * 10 ^ Z.of_nat f + Zpos (Qden x)) / (2 * Zpos (Qden x)).

(** [Number.prototype.toFixed]; from 1e21 on the digits are those of
    [Number::toString]. *)
Definition toFixed (numberToString : Q -> string) (f : nat) (x : Q)
  : string :=
  let negative := negb (Qle_bool 0 x) in
  let magnitude := if negative then Qopp x else x in
  (if negative then "-" else "")
  ++ (if Qle_bool (inject_Z (10 ^ 21)) magnitude
      then numberToString magnitude
      else
        let n := scaledNearest f magnitude in
        NToString (Z.to_N (n / 10 ^ Z.of_nat f))
        ++ match f with
           | O => ""
           | S _ => "." ++ fractionDigits f (n mod 10 ^ Z.of_nat f)
           end).

End Js.

(** ** Grade calculations *)

Module GradeCalculations.

(** Modelled from the spec: the grading policy table of
    [@/utils/gradeCalculations], which is not part of the sources.  A
    table lists (threshold, grade point) rows, read top-down; marks below
    every threshold earn 0.0. *)
Definition GradeTable : Type := list (Q * Q).

Fixpoint tableGradePoint (tbl : GradeTable) (m : number) : number :=
  match tbl with
  | [] => 0
  | (threshold, points) :: rest =>
      if Qle_bool threshold m then points else tableGradePoint rest m
  end.

(** The breakpoints the specification names: 85 and above is 4.0, 80 and
    above is 3.7. *)
Definition sampleTable : GradeTable := [ (85, 4); (80, 37 # 10) ].

(** The specification's validity: a subject is valid when its name is not
    empty and its marks lie in [0, 100]. *)
Definition valid (s : Subject) : Prop :=
  name s <> "" /\ 0 <= marks s <= 100.

Section Policy.

(** The marks-to-grade-point mapping is a policy parameter. *)
Variable gradePoint : number -> number.

(** Σ gradePoint(marks_i) × creditHours_i *)
Fixpoint weightedPoints (subjects : list Subject) : Q :=
  match subjects with
  | [] => 0
  | s :: rest =>
      gradePoint (marks s) * inject_Z (Z.of_N (creditHours s))
      + weightedPoints rest
  end.

(** Σ creditHours_i *)
Fixpoint totalCreditHours (subjects : list Subject) : N :=
  match subjects with
  | [] => 0%N
  | s :: rest => (creditHours s + totalCreditHours rest)%N
  end.

(** Modelled from the spec: [calculateGPA] of
    [@/utils/gradeCalculations], which is not part of the sources.  It
    fails ([None]) on an empty list and when the credit hours add up to
    zero, and is the credit-hour-weighted mean otherwise. *)
Definition calculateGPA (subjects : list Subject) : option number :=
  match subjects with
  | [] => None
  | _ :: _ =>
      let total := totalCreditHours subjects in
      if (total =? 0)%N then None
      else Some (weightedPoints subjects / inject_Z (Z.of_N total))
  end.

End Policy.

End GradeCalculations.

(** ** The calculator component *)

Module GPACalculator.

(** The five [useState] cells of the component. *)
Record State : Type := mkState {
  open : bool;
  subjectCount : option nat;       (* [number | null] *)
  subjects : list Subject;
  result : option Result;
  showModal : bool
}.

Definition initialState : State :=
  mkState false None [] None false.

Definition setOpen (b : bool) (st : State) : State :=
  mkState b (subjectCount st) (subjects st) (result st) (showModal st).

Definition withSubjectCount (c : option nat) (st : State) : State :=
  mkState (open st) c (subjects st) (result st) (showModal st).

Definition setSubjects (l : list Subject) (st : State) : State :=
  mkState (open st) (subjectCount st) l (result st) (showModal st).

Definition setResult (r : option Result) (st : State) : State :=
  mkState (open st) (subjectCount st) (subjects st) r (showModal st).

Definition setShowModal (b : bool) (st : State) : State :=
  mkState (open st) (subjectCount st) (subjects st) (result st) b.

(** *** Effects *)

Inductive ToastVariant : Type := DefaultVariant | Destructive.

Record Toast : Type := mkToast {
  title : string;
  description : string;
  variant : ToastVariant
}.

(** The jsPDF calls of [exportToPDF]; coordinates are in millimetres. *)
Inductive PdfOp : Type :=
| NewDocument
| SetFont (font : string)
| SetFontSize (size : nat)
| SetTextColor (r g b : nat)
| SetDrawColor (r g b : nat)
| Line (x1 y1 x2 y2 : nat)
| Text (text : string) (x y : nat)
| AddPage
| Save (filename : string).

(** The callback handed to [setTimeout]. *)
Inductive TimerCallback : Type :=
| TriggerConfetti (gpa : number).

Inductive Effect : Type :=
| EToast (t : Toast)
| ESetTimeout (callback : TimerCallback) (ms : nat)
| EPdf (ops : list PdfOp)
| EConsoleError (message : string).

(** What [triggerConfetti] does to the page: a canvas is appended, the
    confetti animation runs for [duration] milliseconds and the canvas is
    removed again. *)
Inductive DomEffect : Type :=
| ConfettiAnimation (duration : nat).

(** *** The subject count *)

Definition subjectOptions : list nat := [4; 5; 6; 7; 8]%nat.

(** One element of [Array.from({ length: subjectCount }, ...)]. *)
Definition newSubject (index : nat) : Subject :=
  mkSubject (Js.natToString (index + 1)) "" 0 1.

(** The body of the effect that depends on [subjectCount]. *)
Definition subjectCountEffect (st : State) : State :=
  match subjectCount st with
  | Some (S _ as n) => setSubjects (map newSubject (seq 0 n)) st
  | _ => setSubjects [] st
  end.

Definition sameCount (a b : option nat) : bool :=
  match a, b with
  | Some x, Some y => (x =? y)%nat
  | None, None => true
  | _, _ => false
  end.

(** [setSubjectCount c] followed by the render it causes.  The effect is
    keyed on [[subjectCount]]: it runs when the count has changed, and a
    setter called with the current value changes nothing. *)
Definition setSubjectCount (c : option nat) (st : State) : State :=
  if sameCount (subjectCount st) c then st
  else subjectCountEffect (withSubjectCount c st).

(** [onSelect] of the option with value [value]. *)
Definition onSelect (value : nat) (st : State) : State :=
  setOpen false
    (setSubjectCount
       (if sameCount (Some value) (subjectCount st) then None
        else Some value)
       st).

(** *** Editing a subject *)

(** A [field] of [keyof Subject] together with a [value] of the field's
    type, as the three inputs of a subject row pass them. *)
Inductive FieldUpdate : Type :=
| SetId (value : string)
| SetName (value : string)
| SetMarks (value : number)
| SetCreditHours (value : N).

(** [{ ...subject, [field]: value }] *)
Definition assignField (u : FieldUpdate) (subject : Subject) : Subject :=
  match u with
  | SetId v => mkSubject v (name subject) (marks subject) (creditHours subject)
  | SetName v => mkSubject (id subject) v (marks subject) (creditHours subject)
  | SetMarks v => mkSubject (id subject) (name subject) v (creditHours subject)
  | SetCreditHours v => mkSubject (id subject) (name subject) (marks subject) v
  end.

(** [keyof Subject] *)
Inductive Field : Type := FId | FName | FMarks | FCreditHours.

(** [string | number] *)
Inductive JsValue : Type :=
| VString (s : string)
| VNumber (n : number).

Definition fieldEqb (f g : Field) : bool :=
  match f, g with
  | FId, FId | FName, FName | FMarks, FMarks
  | FCreditHours, FCreditHours => true
  | _, _ => false
  end.

Definition field (u : FieldUpdate) : Field :=
  match u with
  | SetId _ => FId
  | SetName _ => FName
  | SetMarks _ => FMarks
  | SetCreditHours _ => FCreditHours
  end.

Definition value (u : FieldUpdate) : JsValue :=
  match u with
  | SetId v | SetName v => VString v
  | SetMarks v => VNumber v
  | SetCreditHours v => VNumber (inject_Z (Z.of_N v))
  end.

(** [subject[field]] *)
Definition getField (f : Field) (subject : Subject) : JsValue :=
  match f with
  | FId => VString (id subject)
  | FName => VString (name subject)
  | FMarks => VNumber (marks subject)
  | FCreditHours => VNumber (inject_Z (Z.of_N (creditHours subject)))
  end.

Definition updateSubject (i : string) (u : FieldUpdate) (st : State) : State :=
  setSubjects
    (map (fun subject =>
            if (id subject =? i)%string then assignField u subject
            else subject)
         (subjects st))
    st.

(** *** Calculation *)

(** The predicate of [subjects.filter] in [calculateResult]. *)
Definition isValidSubject (subject : Subject) : bool :=
  Js.nonEmpty (Js.trim (name subject))
  && Qle_bool 0 (marks subject)
  && Qle_bool (marks subject) 100.

(** [n !== subjectCount] *)
Definition differsFromCount (n : nat) (c : option nat) : bool :=
  match c with
  | Some m => negb (n =? m)%nat
  | None => true
  end.

Definition invalidInputToast : Toast :=
  mkToast "Invalid Input"
          "Please fill in all subject details with marks between 0-100."
          Destructive.

Definition incompleteDataToast : Toast :=
  mkToast "Incomplete Data"
          "Please fill in all subjects before calculating."
          Destructive.

(** [triggerConfetti] touches the page only; it calls no state setter. *)
Definition triggerConfetti (gpa : number) : list DomEffect :=
  if Qle_bool 3 gpa then [ConfettiAnimation 1000] else [].

Definition runTimer (callback : TimerCallback) (st : State)
  : State * list DomEffect :=
  match callback with
  | TriggerConfetti gpa => (st, triggerConfetti gpa)
  end.

Section Imports.

(** The functions imported from [@/utils/gradeCalculations]. *)
Variable calculateGPA : list Subject -> number.
Variable getGPAPercentage : number -> number.
Variable getLetterGrade : number -> string.
Variable getRemarks : number -> string.

(** The [{ gpa, grade, remarks }] object built from a subject list. *)
Definition resultOf (l : list Subject) : Result :=
  let gpa := calculateGPA l in
  let percentage := getGPAPercentage gpa in
  mkResult gpa (getLetterGrade percentage) (getRemarks percentage).

Definition calculateResult (st : State) : State * list Effect :=
  let validSubjects := filter isValidSubject (subjects st) in
  if (List.length validSubjects =? 0)%nat then
    (st, [EToast invalidInputToast])
  else if differsFromCount (List.length validSubjects) (subjectCount st) then
    (st, [EToast incompleteDataToast])
  else
    let gpa := calculateGPA validSubjects in
    let percentage := getGPAPercentage gpa in
    let grade := getLetterGrade percentage in
    let remarks := getRemarks percentage in
    (setShowModal true (setResult (Some (mkResult gpa grade remarks)) st),
     [ESetTimeout (TriggerConfetti gpa) 500]).

End Imports.

(** The validation failures of the controller, as the toasts name them. *)
Inductive CalcError : Type := EmptyInput | IncompleteData.

Definition reportedError (effects : list Effect) : option CalcError :=
  match effects with
  | [EToast t] =>
      if (title t =? "Invalid Input")%string then Some EmptyInput
      else if (title t =? "Incomplete Data")%string then Some IncompleteData
      else None
  | _ => None
  end.

(** *** The result overlay *)

(** [onClose] as passed to [ResultModal]. *)
Definition onClose (st : State) : State := setShowModal false st.

(** The gestures [ResultModal] listens to while it is open. *)
Inductive ModalGesture : Type :=
| EscapeKey
| BackdropClick
| CloseClick
| ExportClick.

(** *** PDF export *)

(** What [exportToPDF] reads from outside the component: the two
    renderings of [new Date()], and whether one of the jsPDF calls throws
    (the position of the first call that does). *)
Record Environment : Type := mkEnvironment {
  localeDateString : string;       (* [new Date().toLocaleDateString()] *)
  isoDateString : string;          (* [new Date().toISOString().split('T')[0]] *)
  jsPdfThrowsAt : option nat
}.

Definition exportCompleteToast : Toast :=
  mkToast "Export Complete"
          "Your GPA results have been downloaded as a PDF file."
          DefaultVariant.

Definition exportErrorToast : Toast :=
  mkToast "Export Error"
          "There was an error generating the PDF. Please try again."
          Destructive.

Section PdfExport.

(** [Number::toString], used by the template literal for the marks. *)
Variable numberToString : number -> string.

Definition subjectLine (index : nat) (subject : Subject) : string :=
  Js.natToString (index + 1) ++ ". " ++ name subject ++ ": "
  ++ numberToString (marks subject) ++ "/100 ("
  ++ Js.NToString (creditHours subject) ++ " credit hours)".

(** The calls up to the subject list. *)
Definition pdfHeader (r : Result) : list PdfOp :=
  [ NewDocument;
    SetFont "helvetica";
    SetFontSize 20;
    SetTextColor 0 136 204;
    Text "UoH GPA Calculator Results" 20 30;
    SetDrawColor 238 238 238;
    Line 20 35 190 35;
    SetFontSize 14;
    SetTextColor 0 0 0;
    Text "Results:" 20 50;
    SetFontSize 12;
    Text ("GPA: " ++ Js.toFixed numberToString 2 (gpa r)) 30 65;
    Text ("Grade: " ++ grade r) 30 75;
    Text ("Remarks: " ++ remarks r) 30 85;
    SetFontSize 14;
    Text "Subject Details:" 20 105;
    SetFontSize 10 ]%nat.

(** One round of [subjects.forEach]: the calls made so far and
    [yPosition]. *)
Definition subjectStep (acc : list PdfOp * nat) (entry : nat * Subject)
  : list PdfOp * nat :=
  let '(calls, yPosition) := acc in
  let '(index, subject) := entry in
  let '(calls, yPosition) :=
    if (270 <? yPosition)%nat then ((calls ++ [AddPage])%list, 20%nat)
    else (calls, yPosition) in
  ((calls ++ [Text (subjectLine index subject) 30 yPosition])%list,
   (yPosition + 10)%nat).

(** The (index, element) pairs a [forEach] visits. *)
Definition indexed (l : list Subject) : list (nat * Subject) :=
  combine (seq 0 (List.length l)) l.

(** The calls of the whole loop, by recursion on the subjects that are
    left: the calls, and [yPosition] after the last round. *)
Fixpoint subjectCalls (index yPosition : nat) (l : list Subject)
  : list PdfOp * nat :=
  match l with
  | [] => ([], yPosition)
  | subject :: rest =>
      let newPage := (270 <? yPosition)%nat in
      let y := if newPage then 20%nat else yPosition in
      let '(calls, yEnd) := subjectCalls (S index) (y + 10) rest in
      (((if newPage then [AddPage] else [])
        ++ Text (subjectLine index subject) 30 y :: calls)%list,
       yEnd)
  end.

Definition pdfFooter (env : Environment) (acc : list PdfOp * nat)
  : list PdfOp :=
  let '(calls, yPosition) := acc in
  let '(calls, yPosition) :=
    if (250 <? yPosition)%nat then ((calls ++ [AddPage])%list, 20%nat)
    else (calls, yPosition) in
  (calls ++
   [ SetFontSize 8;
     SetTextColor 151 151 151;
     Text ("Generated on: " ++ localeDateString env) 20 (yPosition + 20);
     Text "Prepared by students of Batch 2024 – AI Section A & B"
          20 (yPosition + 30);
     Save ("GPA_Results_" ++ isoDateString env ++ ".pdf") ])%list.

(** Every jsPDF call of the [try] block, in order. *)
Definition pdfCalls (env : Environment) (r : Result) (l : list Subject)
  : list PdfOp :=
  pdfFooter env (fold_left subjectStep (indexed l) (pdfHeader r, 120%nat)).

Definition jsPdfThrows (env : Environment) (calls : list PdfOp) : bool :=
  match jsPdfThrowsAt env with
  | Some k => (k <? List.length calls)%nat
  | None => false
  end.

Definition exportToPDF (env : Environment) (st : State)
  : State * list Effect :=
  match result st with
  | None => (st, [])
  | Some r =>
      let calls := pdfCalls env r (subjects st) in
      match jsPdfThrowsAt env with
      | Some k =>
          if (k <? List.length calls)%nat then
            (st, [ EPdf (firstn k calls);
                   EConsoleError "Error generating PDF:";
                   EToast exportErrorToast ])
          else
            (setShowModal false st,
             [EPdf calls; EToast exportCompleteToast])
      | None =>
          (setShowModal false st,
           [EPdf calls; EToast exportCompleteToast])
      end
  end.

(** A gesture on the overlay, which is mounted while [isOpen]. *)
Definition modalGesture (env : Environment) (g : ModalGesture)
    (st : State) : State * list Effect :=
  if showModal st then
    match g with
    | ExportClick => exportToPDF env st
    | EscapeKey | BackdropClick | CloseClick => (onClose st, [])
    end
  else (st, []).

End PdfExport.

(** *** The component as a whole *)

(** What the user can do. *)
Inductive Event : Type :=
| SelectOption (value : nat)
| EditField (i : string) (u : FieldUpdate)
| ClickCalculate
| OverlayGesture (env : Environment) (g : ModalGesture).

(** [{subjectCount && (...)}]: the subject rows and the Calculate button
    are rendered for a count that is truthy. *)
Definition rendersForm (st : State) : bool :=
  match subjectCount st with
  | Some (S _) => true
  | _ => false
  end.

Section App.

Variable calculateGPA : list Subject -> number.
Variable getGPAPercentage : number -> number.
Variable getLetterGrade : number -> string.
Variable getRemarks : number -> string.
Variable numberToString : number -> string.

Definition handle (e : Event) (st : State) : State * list Effect :=
  match e with
  | SelectOption value =>
      if existsb (Nat.eqb value) subjectOptions
      then (onSelect value st, [])
      else (st, [])
  | EditField i u =>
      if rendersForm st then (updateSubject i u st, []) else (st, [])
  | ClickCalculate =>
      if rendersForm st
      then calculateResult calculateGPA getGPAPercentage getLetterGrade
             getRemarks st
      else (st, [])
  | OverlayGesture env g => modalGesture numberToString env g st
  end.

(** The states the component can be in. *)
Inductive reachable : State -> Prop :=
| reachable_initial : reachable initialState
| reachable_step (e : Event) (st : State) :
    reachable st -> reachable (fst (handle e st)).

End App.

(** The texts a list of jsPDF calls writes, in order. *)
Definition textsOf (calls : list PdfOp) : list string :=
  flat_map (fun c => match c with Text t _ _ => [t] | _ => [] end) calls.

(** Walks the calls page by page: every text has to lie below the text
    before it on the same page and not below [limit].  The result is the
    height of the last text of the last page, or [None] when a text is
    out of place. *)
Fixpoint scanPage (limit lastY : nat) (calls : list PdfOp) : option nat :=
  match calls with
  | [] => Some lastY
  | Text _ _ y :: rest =>
      if ((lastY <? y) && (y <=? limit))%nat then scanPage limit y rest
      else None
  | AddPage :: rest => scanPage limit 0 rest
  | _ :: rest => scanPage limit lastY rest
  end.

(** The lowest line jsPDF is asked to write on; an A4 page is 297 mm
    high. *)
Definition pageBottom : nat := 280.

(** The form invariant: the list has as many entries as the count says. *)
Definition formInvariant (st : State) : Prop :=
  List.length (subjects st)
  = match subjectCount st with Some n => n | None => 0%nat end.

End GPACalculator.

(** ** The outcome of a calculation, in the specification's words *)

Module Controller.
Import GPACalculator.

Inductive Outcome : Type :=
| Failure (e : CalcError)
| Success.

(** What a call of [calculateResult] reported. *)
Definition outcome (effects : list Effect) : Outcome :=
  match reportedError effects with
  | Some e => Failure e
  | None => Success
  end.

(** The specification's validity: a non-empty name and marks in
    [0, 100]. *)
Definition specValid (subject : Subject) : bool :=
  Js.nonEmpty (name subject)
  && Qle_bool 0 (marks subject)
  && Qle_bool (marks subject) 100.

(** The specification's rule for [calculate()], over [specValid]. *)
Definition specOutcome (st : State) : Outcome :=
  let valid := filter specValid (subjects st) in
  match valid with
  | [] => Failure EmptyInput
  | _ :: _ =>
      if differsFromCount (List.length valid) (subjectCount st)
      then Failure IncompleteData
      else Success
  end.

End Controller.

(** ** An example policy and worked inputs *)

Module Sample.
Import GPACalculator.

(** The grade functions, instantiated with the rows the specification
    names.  They fix the imported functions in the worked examples. *)
Definition calculateGPA (l : list Subject) : number :=
  match GradeCalculations.calculateGPA
          (GradeCalculations.tableGradePoint GradeCalculations.sampleTable) l
  with
  | Some g => g
  | None => 0
  end.

Definition getGPAPercentage (g : number) : number := g / 4 * 100.

Definition getLetterGrade (p : number) : string :=
  if Qle_bool 90 p then "A" else if Qle_bool 80 p then "B" else "F".

Definition getRemarks (p : number) : string :=
  if Qle_bool 90 p then "Excellent"
  else if Qle_bool 80 p then "Good"
  else "Needs Improvement".

(** [Number::toString] on whole numbers. *)
Definition numberToString (q : number) : string :=
  Js.NToString (Z.to_N (Qnum q / Zpos (Qden q))).

Definition calculate : State -> State * list Effect :=
  calculateResult calculateGPA getGPAPercentage getLetterGrade getRemarks.

Definition today : Environment :=
  mkEnvironment "11/2/2026" "2026-11-02" None.

(** The third jsPDF call throws. *)
Definition brokenPdf : Environment :=
  mkEnvironment "11/2/2026" "2026-11-02" (Some 2%nat).

(** Four filled-in subjects. *)
Definition filled : list Subject :=
  [ mkSubject "1" "Calculus" 100 3;
    mkSubject "2" "Physics" 82 3;
    mkSubject "3" "English" 90 2;
    mkSubject "4" "Drawing" 0 1 ].

Definition filledState : State :=
  mkState false (Some 4%nat) filled None false.

(** The fourth row has been left untouched. *)
Definition partlyFilledState : State :=
  mkState false (Some 4%nat)
    [ mkSubject "1" "Calculus" 100 3;
      mkSubject "2" "Physics" 82 3;
      mkSubject "3" "English" 90 2;
      mkSubject "4" "" 0 1 ]
    None false.

(** Every name is a single space. *)
Definition blankNamesState : State :=
  mkState false (Some 4%nat)
    [ mkSubject "1" " " 50 1;
      mkSubject "2" " " 50 1;
      mkSubject "3" " " 50 1;
      mkSubject "4" " " 50 1 ]
    None false.

(** The overlay is showing a result. *)
Definition resultShownState : State :=
  mkState false (Some 4%nat) filled
    (Some (mkResult (311 # 90) "B" "Good")) true.

End Sample.

(** ** The overlay's event handlers *)

Module ResultModal.
Import GPACalculator.

(** The elements of the overlay a click can land on. *)
Inductive Node : Type :=
| Container          (* the outer [motion.div] *)
| Backdrop           (* the blurred [motion.div] behind the content *)
| Content            (* the modal content *)
| Shimmer
| CloseButton
| CloseIcon
| Header
| Results
| ExportWrapper
| ExportButton
| ExportIcon.

Definition parent (n : Node) : option Node :=
  match n with
  | Container => None
  | Backdrop | Content => Some Container
  | Shimmer | CloseButton | Header | Results | ExportWrapper => Some Content
  | CloseIcon => Some CloseButton
  | ExportButton => Some ExportWrapper
  | ExportIcon => Some ExportButton
  end.

Definition nodeEqb (a b : Node) : bool :=
  match a, b with
  | Container, Container | Backdrop, Backdrop | Content, Content
  | Shimmer, Shimmer | CloseButton, CloseButton | CloseIcon, CloseIcon
  | Header, Header | Results, Results | ExportWrapper, ExportWrapper
  | ExportButton, ExportButton | ExportIcon, ExportIcon => true
  | _, _ => false
  end.

(** The two callbacks the overlay receives as props. *)
Inductive Callback : Type := OnClose | OnExport.

(** The [onClick] handler of [current] for a click on [target]: the
    callbacks it calls, and whether it calls [stopPropagation]. *)
Definition onClick (current target : Node) : list Callback * bool :=
  match current with
  | Container | Backdrop =>
      (* handleBackdropClick *)
      if nodeEqb target current then ([OnClose], true) else ([], false)
  | Content => ([], true)
  | CloseButton => ([OnClose], true)        (* handleCloseClick *)
  | ExportButton => ([OnExport], true)      (* handleExportClick *)
  | Shimmer | CloseIcon | Header | Results | ExportWrapper | ExportIcon =>
      ([], false)
  end.

(** The element and its ancestors, innermost first. *)
Fixpoint ancestors (fuel : nat) (n : Node) : list Node :=
  match fuel with
  | O => []
  | S fuel' =>
      n :: match parent n with
           | Some p => ancestors fuel' p
           | None => []
           end
  end.

(** The tree is five levels deep. *)
Definition path (target : Node) : list Node := ancestors 5 target.

(** The click bubbles along the path until a handler stops it. *)
Fixpoint bubble (nodes : list Node) (target : Node) : list Callback :=
  match nodes with
  | [] => []
  | current :: rest =>
      let '(callbacks, stop) := onClick current target in
      if stop then callbacks else (callbacks ++ bubble rest target)%list
  end.

Definition click (target : Node) : list Callback :=
  bubble (path target) target.

Section Props.

Variable numberToString : number -> string.

(** [onClose] and [onExport] as [GPACalculator] passes them. *)
Definition call (env : Environment) (c : Callback) (st : State)
  : State * list Effect :=
  match c with
  | OnClose => (onClose st, [])
  | OnExport => exportToPDF numberToString env st
  end.

Fixpoint callAll (env : Environment) (cs : list Callback) (st : State)
  : State * list Effect :=
  match cs with
  | [] => (st, [])
  | c :: rest =>
      let '(st1, effects1) := call env c st in
      let '(st2, effects2) := callAll env rest st1 in
      (st2, (effects1 ++ effects2)%list)
  end.

(** A click on the overlay, which renders nothing unless [isOpen]. *)
Definition modalClick (env : Environment) (target : Node) (st : State)
  : State * list Effect :=
  if showModal st then callAll env (click target) st else (st, []).

End Props.

(** The [result] prop: [result || { gpa: 0, grade: '', remarks: '' }]. *)
Definition shownResult (st : State) : Result :=
  match result st with
  | Some r => r
  | None => mkResult 0 "" ""
  end.

(** [handleEscape], which is listening while [isOpen]. *)
Definition modalKeydown (key : string) (st : State) : State :=
  if showModal st && (key =? "Escape")%string then onClose st else st.

End ResultModal.

(** ** The inputs of the form *)

Module Form.
Import GPACalculator.

(** [{ value, label }] of [subjectOptions]. *)
Definition subjectOptionLabels : list (nat * string) :=
  [ (4, "4 Subjects"); (5, "5 Subjects"); (6, "6 Subjects");
    (7, "7 Subjects"); (8, "8 Subjects") ]%nat.

(** The text of the combobox button; [None] stands for [undefined]. *)
Definition buttonLabel (st : State) : option string :=
  match subjectCount st with
  | Some (S _ as n) =>
      option_map snd
        (find (fun o => (fst o =? n)%nat) subjectOptionLabels)
  | _ => Some "Select number of subjects..."
  end.

(** The [<option>] values of the credit hours [<select>]. *)
Definition creditHourOptions : list N := [1; 2; 3; 4]%N.

(** A change of one of the three inputs of a subject row: the text of the
    name, the number read from the marks, the option chosen for the credit
    hours. *)
Inductive RowInput : Type :=
| NameInput (text : string)
| MarksInput (n : number)
| CreditHoursSelect (hours : N).

Definition rowUpdate (input : RowInput) : FieldUpdate :=
  match input with
  | NameInput text => SetName text
  | MarksInput n => SetMarks n
  | CreditHoursSelect hours => SetCreditHours hours
  end.

Definition offered (input : RowInput) : bool :=
  match input with
  | CreditHoursSelect hours => existsb (N.eqb hours) creditHourOptions
  | _ => true
  end.

(** [onChange] of an input in the row rendered for [subjects[k]]. *)
Definition onRowChange (k : nat) (input : RowInput) (st : State) : State :=
  if rendersForm st && offered input then
    match nth_error (subjects st) k with
    | Some subject => updateSubject (id subject) (rowUpdate input) st
    | None => st
    end
  else st.

(** What the user can do with the rendered page. *)
Inductive UiEvent : Type :=
| ChooseOption (value : nat)
| ChangeRow (k : nat) (input : RowInput)
| PressCalculate
| ClickOverlay (env : Environment) (target : ResultModal.Node)
| PressKey (key : string)
| TimerFires (callback : TimerCallback).

Section App.

Variable calculateGPA : list Subject -> number.
Variable getGPAPercentage : number -> number.
Variable getLetterGrade : number -> string.
Variable getRemarks : number -> string.
Variable numberToString : number -> string.

Definition uiHandle (e : UiEvent) (st : State) : State * list Effect :=
  match e with
  | ChooseOption value =>
      if existsb (Nat.eqb value) subjectOptions
      then (onSelect value st, [])
      else (st, [])
  | ChangeRow k input => (onRowChange k input st, [])
  | PressCalculate =>
      if rendersForm st
      then calculateResult calculateGPA getGPAPercentage getLetterGrade
             getRemarks st
      else (st, [])
  | ClickOverlay env target =>
      ResultModal.modalClick numberToString env target st
  | PressKey key => (ResultModal.modalKeydown key st, [])
  | TimerFires callback => (fst (runTimer callback st), [])
  end.

(** The states the page can be brought into. *)
Inductive uiReachable : State -> Prop :=
| uiReachable_initial : uiReachable initialState
| uiReachable_step (e : UiEvent) (st : State) :
    uiReachable st -> uiReachable (fst (uiHandle e st)).

(** The state after a sequence of events. *)
Fixpoint uiRun (events : list UiEvent) (st : State) : State :=
  match events with
  | [] => st
  | e :: rest => uiRun rest (fst (uiHandle e st))
  end.

End App.

(** Choosing four subjects and filling in the four rows. *)
Definition fillFourRows : list UiEvent :=
  [ ChooseOption 4;
    ChangeRow 0 (NameInput "Calculus");
    ChangeRow 0 (MarksInput 100);
    ChangeRow 0 (CreditHoursSelect 3);
    ChangeRow 1 (NameInput "Physics");
    ChangeRow 1 (MarksInput 82);
    ChangeRow 1 (CreditHoursSelect 3);
    ChangeRow 2 (NameInput "English");
    ChangeRow 2 (MarksInput 90);
    ChangeRow 2 (CreditHoursSelect 2);
    ChangeRow 3 (NameInput "Drawing") ].

(** The ids of a form of [n] rows: "1" to "n". *)
Definition rowIds (n : nat) : list string :=
  map (fun index => Js.natToString (index + 1)) (seq 0 n).

End Form.

(** ** The confetti animation *)

Module Confetti.

(** What [triggerConfetti] does with its canvas. *)
Inductive CanvasOp : Type :=
| AppendCanvas
| Burst (particleCount angle spread : nat)
| RequestFrame
| RemoveCanvas.

Definition duration : nat := 1000.

(** The three [myConfetti] calls of one frame. *)
Definition frameBursts : list CanvasOp :=
  [Burst 3 60 55; Burst 3 120 55; Burst 2 90 45].

(** [frame], called once for each reading of [Date.now()] in [clock]: the
    readings are those of the first call and of every animation frame that
    was delivered afterwards. *)
Fixpoint frames (endTime : nat) (clock : list nat) : list CanvasOp :=
  match clock with
  | [] => []
  | now :: later =>
      if (endTime <? now)%nat then [RemoveCanvas]
      else (frameBursts ++ RequestFrame :: frames endTime later)%list
  end.

(** [triggerConfetti(gpa)], started at time [start]. *)
Definition run (gpa : number) (start first : nat) (later : list nat)
  : list CanvasOp :=
  if Qle_bool 3 gpa
  then AppendCanvas :: frames (start + duration) (first :: later)
  else [].

(** The number of frames that draw: the readings up to the first one past
    [endTime]. *)
Fixpoint framesDrawn (endTime : nat) (clock : list nat) : nat :=
  match clock with
  | [] => 0
  | now :: later =>
      if (endTime <? now)%nat then 0 else S (framesDrawn endTime later)
  end.

Definition isBurst (op : CanvasOp) : bool :=
  match op with
  | Burst _ _ _ => true
  | _ => false
  end.

Definition isRemove (op : CanvasOp) : bool :=
  match op with
  | RemoveCanvas => true
  | _ => false
  end.

End Confetti.

(** ** Reading a list of jsPDF calls *)

Module Pdf.
Import GPACalculator.

Definition isSave (c : PdfOp) : bool :=
  match c with
  | Save _ => true
  | _ => false
  end.

Definition isAddPage (c : PdfOp) : bool :=
  match c with
  | AddPage => true
  | _ => false
  end.

(** The number of pages of the document the calls build. *)
Definition pageCount (calls : list PdfOp) : nat :=
  S (List.length (filter isAddPage calls)).

(** The name [doc.save] is called with. *)
Definition fileName (env : Environment) : string :=
  "GPA_Results_" ++ isoDateString env ++ ".pdf".

End Pdf.

(** ** Properties of the grade calculations *)

Module GradeCalculationsFacts.
Import GradeCalculations.

Lemma tableGradePoint_cases (tbl : GradeTable) (m : number) :
  tableGradePoint tbl m = 0 \/ In (tableGradePoint tbl m) (map snd tbl).
Proof.
  induction tbl as [|[t p] rest IH]; simpl.
  - now left.
  - destruct (Qle_bool t m).
    + right. now left.
    + destruct IH as [IH|IH]; [now left | right; now right].
Qed.

Lemma tableGradePoint_scale (tbl : GradeTable) :
  Forall (fun row => 0 <= snd row <= 4) tbl ->
  forall m, 0 <= tableGradePoint tbl m <= 4.
Proof.
  intros Hall m.
  destruct (tableGradePoint_cases tbl m) as [->|Hin].
  - split; [apply Qle_refl | discriminate].
  - apply in_map_iff in Hin. destruct Hin as [row [<- Hrow]].
    rewrite Forall_forall in Hall. now apply Hall.
Qed.

Lemma sampleTable_scale :
  forall m, 0 <= tableGradePoint sampleTable m <= 4.
Proof.
  apply tableGradePoint_scale.
  repeat constructor; simpl; discriminate.
Qed.

Section Policy.

Variable gradePoint : number -> number.
Hypothesis gradePoint_scale :
  forall m, 0 <= m <= 100 -> 0 <= gradePoint m <= 4.

Lemma inject_N_nonneg (n : N) : 0 <= inject_Z (Z.of_N n).
Proof.
  change 0 with (inject_Z 0). rewrite <- Zle_Qle. lia.
Qed.

Lemma inject_totalCreditHours_cons (s : Subject) (rest : list Subject) :
  inject_Z (Z.of_N (totalCreditHours (s :: rest)))
  == inject_Z (Z.of_N (creditHours s))
     + inject_Z (Z.of_N (totalCreditHours rest)).
Proof.
  cbn [totalCreditHours]. rewrite N2Z.inj_add, inject_Z_plus.
  reflexivity.
Qed.

(** The weighted sum lies between 0 and 4 times the total weight. *)
Lemma weightedPoints_bounds (subjects : list Subject) :
  Forall valid subjects ->
  0 <= weightedPoints gradePoint subjects
  /\ weightedPoints gradePoint subjects
     <= 4 * inject_Z (Z.of_N (totalCreditHours subjects)).
Proof.
  induction 1 as [|s rest [_ Hs] _ [IHlo IHhi]].
  - simpl. split; [apply Qle_refl | discriminate].
  - destruct (gradePoint_scale _ Hs) as [Hlo Hhi].
    pose proof (inject_N_nonneg (creditHours s)) as Hc.
    rewrite inject_totalCreditHours_cons.
    cbn [weightedPoints].
    set (g := gradePoint (marks s)) in *.
    set (c := inject_Z (Z.of_N (creditHours s))) in *.
    set (w := weightedPoints gradePoint rest) in *.
    set (t := inject_Z (Z.of_N (totalCreditHours rest))) in *.
    assert (0 <= g * c) by (apply Qmult_le_0_compat; assumption).
    assert (g * c <= 4 * c) by (apply Qmult_le_compat_r; assumption).
    split; lra.
Qed.

End Policy.

(** C1.  For a non-empty list of valid subjects whose credit hours add up
    to a positive number, and a grading policy on the 0.0-4.0 scale,
    [calculateGPA] returns the credit-hour-weighted mean of the
    per-subject grade points, Σ(gradePoint(marks_i) × creditHours_i) /
    Σ(creditHours_i), and that value lies in [0, 4]. *)
Theorem calculateGPA_weighted_mean_in_range
    (gradePoint : number -> number) (subjects : list Subject) :
  (forall m, 0 <= m <= 100 -> 0 <= gradePoint m <= 4) ->
  subjects <> [] ->
  Forall valid subjects ->
  (0 < totalCreditHours subjects)%N ->
  exists g,
    calculateGPA gradePoint subjects = Some g
    /\ g == weightedPoints gradePoint subjects
            / inject_Z (Z.of_N (totalCreditHours subjects))
    /\ 0 <= g <= 4.
Proof.
  intros Hscale Hne Hvalid Hpos.
  destruct (weightedPoints_bounds gradePoint Hscale subjects Hvalid)
    as [Hlo Hhi].
  assert (Ht : 0 < inject_Z (Z.of_N (totalCreditHours subjects))).
  { change 0 with (inject_Z 0). rewrite <- Zlt_Qlt. lia. }
  exists (weightedPoints gradePoint subjects
          / inject_Z (Z.of_N (totalCreditHours subjects))).
  split; [|split; [reflexivity|split]].
  - unfold calculateGPA. destruct subjects as [|s rest]; [contradiction|].
    destruct (N.eqb_spec (totalCreditHours (s :: rest)) 0) as [E|_].
    + rewrite E in Hpos. lia.
    + reflexivity.
  - apply Qle_shift_div_l; [exact Ht|]. now rewrite Qmult_0_l.
  - apply Qle_shift_div_r; [exact Ht|]. exact Hhi.
Qed.

Lemma calculateGPA_weighted_mean_in_range_witness :
  exists g,
    calculateGPA (tableGradePoint sampleTable) Sample.filled = Some g
    /\ g == weightedPoints (tableGradePoint sampleTable) Sample.filled
            / inject_Z (Z.of_N (totalCreditHours Sample.filled))
    /\ 0 <= g <= 4.
Proof.
  apply (calculateGPA_weighted_mean_in_range
           (tableGradePoint sampleTable) Sample.filled).
  - intros m _. apply sampleTable_scale.
  - discriminate.
  - repeat constructor; simpl; discriminate.
  - reflexivity.
Defined.

(** Scenario A: one subject with marks 90 and 3 credit hours has gpa 4. *)
Example scenario_A :
  calculateGPA (tableGradePoint sampleTable) [mkSubject "1" "Algebra" 90 3]
  = Some (12 # 3).
Proof. reflexivity. Qed.

(** Scenario B: marks 100 with 3 credit hours and marks 0 with 1 credit
    hour give (4.0 × 3 + 0.0 × 1) / 4 = 3. *)
Example scenario_B :
  exists g,
    calculateGPA (tableGradePoint sampleTable)
      [mkSubject "1" "Algebra" 100 3; mkSubject "2" "Drawing" 0 1] = Some g
    /\ g == 3.
Proof. eexists. split; reflexivity. Qed.

End GradeCalculationsFacts.

(** ** Properties of the string helpers *)

Module JsFacts.
Import Js.

Ltac step_strip :=
  match goal with
  | |- context [if encodesWhiteSpace ?d then _ else _] =>
      destruct (encodesWhiteSpace d); [reflexivity|]
  end.

(** One step of [trimStart]. *)
Lemma trimStart_eq (s : string) :
  trimStart s = match stripWhiteSpace s with
                | Some r => trimStart r
                | None => s
                end.
Proof.
  destruct s as [|a r1]; [reflexivity|].
  cbn [trimStart stripWhiteSpace]. step_strip.
  destruct r1 as [|b r2]; [reflexivity|]. step_strip.
  destruct r2 as [|c r3]; [reflexivity|]. step_strip.
  reflexivity.
Qed.

Lemma allWhiteSpace_eq (s : string) :
  allWhiteSpace s = match s with
                    | EmptyString => true
                    | String _ _ =>
                        match stripWhiteSpace s with
                        | Some r => allWhiteSpace r
                        | None => false
                        end
                    end.
Proof.
  destruct s as [|a r1]; [reflexivity|].
  cbn [allWhiteSpace stripWhiteSpace]. step_strip.
  destruct r1 as [|b r2]; [reflexivity|]. step_strip.
  destruct r2 as [|c r3]; [reflexivity|]. step_strip.
  reflexivity.
Qed.

Lemma stripWhiteSpace_shorter (s r : string) :
  stripWhiteSpace s = Some r -> (String.length r < String.length s)%nat.
Proof.
  destruct s as [|a r1]; [discriminate|]. cbn [stripWhiteSpace].
  destruct (encodesWhiteSpace (decode1 a));
    [intros H; injection H as <-; cbn; lia|].
  destruct r1 as [|b r2]; [discriminate|].
  destruct (encodesWhiteSpace (decode2 a b));
    [intros H; injection H as <-; cbn; lia|].
  destruct r2 as [|c r3]; [discriminate|].
  destruct (encodesWhiteSpace (decode3 a b c));
    [intros H; injection H as <-; cbn; lia | discriminate].
Qed.

Lemma trimStart_spec (s : string) :
  (trimStart s = "" <-> allWhiteSpace s = true)
  /\ (trimStart s = "" \/ (trimStart s <> "" /\ stripWhiteSpace (trimStart s) = None)).
Proof.
  remember (String.length s) as n eqn:Hn. revert s Hn.
  induction n as [n IH] using lt_wf_ind. intros s Hn.
  rewrite trimStart_eq, allWhiteSpace_eq.
  destruct (stripWhiteSpace s) as [r|] eqn:E.
  - apply stripWhiteSpace_shorter in E as Hlt.
    destruct (IH (String.length r) ltac:(lia) r eq_refl) as [H1 H2].
    destruct s; [discriminate E|]. split; assumption.
  - destruct s as [|a s].
    + split; [tauto | now left].
    + split; [split; discriminate|]. right. split; [discriminate | exact E].
Qed.

Lemma trimEnd_empty (s : string) :
  trimEnd s = "" <-> allWhiteSpace s = true.
Proof.
  destruct s as [|c s]; [cbn; tauto|].
  cbn [trimEnd]. destruct (allWhiteSpace (String c s)); split; (reflexivity || discriminate).
Qed.

(** [name.trim() !== ''] holds when the name is not made of white space
    only. *)
Lemma trim_nonEmpty (s : string) :
  nonEmpty (trim s) = negb (allWhiteSpace s).
Proof.
  unfold trim. destruct (trimStart_spec s) as [Hiff [E|[Hne Hstrip]]].
  - rewrite E. cbn. apply Hiff in E. now rewrite E.
  - assert (Hs : allWhiteSpace s = false).
    { apply not_true_iff_false. intros H. now apply Hiff in H. }
    rewrite Hs. cbn.
    assert (Ht : allWhiteSpace (trimStart s) = false).
    { rewrite allWhiteSpace_eq, Hstrip. destruct (trimStart s); [contradiction|reflexivity]. }
    destruct (trimEnd (trimStart s)) eqn:T; [|reflexivity].
    apply trimEnd_empty in T. congruence.
Qed.

Lemma continuation_range (b : ascii) (y : N) :
  continuation b = Some y -> (y < 64 /\ N_of_ascii b = 128 + y)%N.
Proof.
  unfold continuation.
  destruct (N.leb_spec 128 (N_of_ascii b)); cbn [andb]; [|discriminate].
  destruct (N.ltb_spec (N_of_ascii b) 192); [|discriminate].
  intros Heq. injection Heq as <-. lia.
Qed.

Lemma decode1_utf8 (a : ascii) (cp : N) :
  decode1 a = Some cp -> utf8 cp = String a "".
Proof.
  unfold decode1, utf8.
  destruct (N.ltb_spec (N_of_ascii a) 128); [|discriminate].
  intros Heq. injection Heq as <-.
  destruct (N.ltb_spec (N_of_ascii a) 128); [|lia].
  now rewrite ascii_N_embedding.
Qed.

Lemma decode2_utf8 (a b : ascii) (cp : N) :
  decode2 a b = Some cp -> utf8 cp = String a (String b "").
Proof.
  unfold decode2.
  destruct (N.leb_spec 194 (N_of_ascii a)); cbn [andb]; [|discriminate].
  destruct (N.ltb_spec (N_of_ascii a) 224); [|discriminate].
  destruct (continuation b) as [y|] eqn:Hb; [|discriminate].
  apply continuation_range in Hb. destruct Hb as [Hy Hb].
  intros Heq. injection Heq as <-. unfold utf8.
  set (x := N_of_ascii a) in *.
  assert (Hdiv : (((x - 192) * 64 + y) / 64 = x - 192)%N).
  { symmetry. apply (N.div_unique _ 64 _ y); lia. }
  assert (Hmod : (((x - 192) * 64 + y) mod 64 = y)%N).
  { symmetry. apply (N.mod_unique _ 64 (x - 192)); lia. }
  destruct (N.ltb_spec ((x - 192) * 64 + y) 128); [lia|].
  destruct (N.ltb_spec ((x - 192) * 64 + y) 2048); [|lia].
  rewrite Hdiv, Hmod.
  replace (192 + (x - 192))%N with x by lia. rewrite <- Hb.
  subst x. now rewrite !ascii_N_embedding.
Qed.

Lemma decode3_utf8 (a b c : ascii) (cp : N) :
  decode3 a b c = Some cp -> utf8 cp = String a (String b (String c "")).
Proof.
  unfold decode3.
  destruct (N.leb_spec 224 (N_of_ascii a)); cbn [andb]; [|discriminate].
  destruct (N.ltb_spec (N_of_ascii a) 240); [|discriminate].
  destruct (continuation b) as [y|] eqn:Hb; [|discriminate].
  destruct (continuation c) as [z|] eqn:Hc; [|discriminate].
  apply continuation_range in Hb, Hc.
  destruct Hb as [Hy Hb]. destruct Hc as [Hz Hc].
  set (x := N_of_ascii a) in *. cbv zeta.
  set (cp' := ((x - 224) * 4096 + y * 64 + z)%N).
  destruct (N.leb_spec 2048 cp'); [|discriminate].
  intros Heq. injection Heq as <-. unfold utf8.
  assert (Hd1 : (cp' / 4096 = x - 224)%N).
  { symmetry. apply (N.div_unique _ 4096 _ (y * 64 + z)); subst cp'; lia. }
  assert (Hd2 : (cp' / 64 = (x - 224) * 64 + y)%N).
  { symmetry. apply (N.div_unique _ 64 _ z); subst cp'; lia. }
  assert (Hm2 : (((x - 224) * 64 + y) mod 64 = y)%N).
  { symmetry. apply (N.mod_unique _ 64 (x - 224)); lia. }
  assert (Hm3 : (cp' mod 64 = z)%N).
  { symmetry. apply (N.mod_unique _ 64 ((x - 224) * 64 + y)); subst cp'; lia. }
  destruct (N.ltb_spec cp' 128); [lia|].
  destruct (N.ltb_spec cp' 2048); [lia|].
  rewrite Hd1, Hd2, Hm2, Hm3.
  replace (224 + (x - 224))%N with x by lia. rewrite <- Hb, <- Hc.
  subst x. now rewrite !ascii_N_embedding.
Qed.

Lemma isWhiteSpace_In (cp : N) :
  isWhiteSpace cp = true <-> In cp whiteSpaceCodePoints.
Proof.
  unfold isWhiteSpace. rewrite existsb_exists. split.
  - intros [x [Hx E]]. apply N.eqb_eq in E. now subst.
  - intros H. exists cp. split; [exact H | apply N.eqb_refl].
Qed.

(** What is stripped is exactly the encoding of a white space code
    point. *)
Lemma stripWhiteSpace_iff (s r : string) :
  stripWhiteSpace s = Some r
  <-> exists cp, In cp whiteSpaceCodePoints /\ s = utf8 cp ++ r.
Proof.
  split.
  - destruct s as [|a r1]; [discriminate|]. cbn [stripWhiteSpace].
    destruct (decode1 a) as [cp|] eqn:D1; cbn [encodesWhiteSpace].
    + destruct (isWhiteSpace cp) eqn:W.
      * intros Heq. injection Heq as <-. exists cp.
        split; [now apply isWhiteSpace_In|].
        now rewrite (decode1_utf8 a cp D1).
      * destruct r1 as [|b r2]; [discriminate|].
        unfold decode2, decode3, decode1 in *.
        destruct (N.ltb_spec (N_of_ascii a) 128); [|discriminate].
        destruct (N.leb_spec 194 (N_of_ascii a)); [lia|]. cbn [andb encodesWhiteSpace].
        destruct r2 as [|c r3]; [discriminate|].
        destruct (N.leb_spec 224 (N_of_ascii a)); [lia|]. discriminate.
    + destruct r1 as [|b r2]; [discriminate|].
      destruct (decode2 a b) as [cp|] eqn:D2; cbn [encodesWhiteSpace].
      * destruct (isWhiteSpace cp) eqn:W.
        -- intros Heq. injection Heq as <-. exists cp.
           split; [now apply isWhiteSpace_In|].
           now rewrite (decode2_utf8 a b cp D2).
        -- destruct r2 as [|c r3]; [discriminate|].
           unfold decode2, decode3 in *.
           destruct (N.leb_spec 194 (N_of_ascii a)); [|discriminate].
           destruct (N.ltb_spec (N_of_ascii a) 224); [|discriminate].
           destruct (N.leb_spec 224 (N_of_ascii a)); [lia|]. discriminate.
      * destruct r2 as [|c r3]; [discriminate|].
        destruct (decode3 a b c) as [cp|] eqn:D3; cbn [encodesWhiteSpace];
          [|discriminate].
        destruct (isWhiteSpace cp) eqn:W; [|discriminate].
        intros Heq. injection Heq as <-. exists cp.
        split; [now apply isWhiteSpace_In|].
        now rewrite (decode3_utf8 a b c cp D3).
  - intros [cp [Hcp ->]]. cbn in Hcp.
    repeat (destruct Hcp as [<-|Hcp]; [reflexivity|]). contradiction.
Qed.

Lemma utf8_nonEmpty (cp : N) (s : string) : exists a t, utf8 cp ++ s = String a t.
Proof.
  unfold utf8. destruct (cp <? 128)%N; [|destruct (cp <? 2048)%N]; cbn; eauto.
Qed.

(** The strings of white space are the encodings of sequences of white
    space code points. *)
Lemma allWhiteSpace_iff (s : string) :
  allWhiteSpace s = true
  <-> exists cps, Forall (fun cp => In cp whiteSpaceCodePoints) cps
                  /\ s = encode cps.
Proof.
  remember (String.length s) as n eqn:Hn. revert s Hn.
  induction n as [n IH] using lt_wf_ind. intros s Hn.
  rewrite allWhiteSpace_eq. destruct s as [|a t].
  - split; [|reflexivity]. intros _. exists []. now split.
  - destruct (stripWhiteSpace (String a t)) as [r|] eqn:E.
    + apply stripWhiteSpace_shorter in E as Hlt.
      rewrite (IH (String.length r) ltac:(lia) r eq_refl).
      apply stripWhiteSpace_iff in E. destruct E as [cp [Hcp E]].
      split.
      * intros [cps [Hall ->]]. exists (cp :: cps). split; [now constructor|].
        exact E.
      * intros [cps [Hall Hs]]. destruct cps as [|cp' cps]; [discriminate|].
        inversion Hall as [|? ? Hcp' Hall']; subst.
        assert (E' : stripWhiteSpace (String a t) = Some (encode cps)).
        { apply stripWhiteSpace_iff. exists cp'. split; [exact Hcp'|exact Hs]. }
        assert (E'' : stripWhiteSpace (String a t) = Some r).
        { apply stripWhiteSpace_iff. exists cp. split; assumption. }
        rewrite E' in E''. injection E'' as <-. now exists cps.
    + split; [discriminate|]. intros [cps [Hall Hs]].
      destruct cps as [|cp cps]; [discriminate|].
      inversion Hall as [|? ? Hcp Hall']; subst.
      assert (E' : stripWhiteSpace (String a t) = Some (encode cps)).
      { apply stripWhiteSpace_iff. exists cp. split; [exact Hcp|exact Hs]. }
      congruence.
Qed.

(** [scaledNearest f x] is [x * 10^f] rounded to the nearest integer, a tie
    going up. *)
Lemma scaledNearest_nearest (f : nat) (x : Q) :
  inject_Z (scaledNearest f x) <= x * inject_Z (10 ^ Z.of_nat f) + (1 # 2)
  /\ x * inject_Z (10 ^ Z.of_nat f) + (1 # 2)
     < inject_Z (scaledNearest f x) + 1.
Proof.
  destruct x as [p q]. unfold scaledNearest. cbn [Qnum Qden].
  set (t := (10 ^ Z.of_nat f)%Z).
  set (a := (2 * p * t + Z.pos q)%Z).
  set (b := (2 * Z.pos q)%Z).
  assert (Hb : (0 < b)%Z) by (subst b; lia).
  pose proof (Z.mul_div_le a b Hb) as Hlo.
  pose proof (Z.mul_succ_div_gt a b Hb) as Hhi.
  set (n := (a / b)%Z) in *.
  unfold Qle, Qlt, Qplus, Qmult, inject_Z. cbn [Qnum Qden].
  rewrite ?Pos.mul_1_r, ?Pos2Z.inj_mul.
  subst a b. split; nia.
Qed.

(** Below 1e21, [toFixed(2)] of a number that is not negative writes the
    nearest hundredth, a tie going up: the whole part, a point and two
    digits. *)
Lemma toFixed_2_nearest_hundredth (numberToString : Q -> string) (x : Q) :
  0 <= x -> x < inject_Z (10 ^ 21) ->
  exists n : Z,
    inject_Z n <= x * 100 + (1 # 2)
    /\ x * 100 + (1 # 2) < inject_Z n + 1
    /\ (0 <= n)%Z
    /\ toFixed numberToString 2 x
       = NToString (Z.to_N (n / 100)) ++ "."
         ++ String (digitChar (n mod 100 / 10))
              (String (digitChar (n mod 100 mod 10)) "").
Proof.
  intros Hpos Hbig. exists (scaledNearest 2 x).
  destruct (scaledNearest_nearest 2 x) as [Hlo Hhi].
  change (inject_Z (10 ^ Z.of_nat 2)) with 100 in Hlo, Hhi.
  split; [exact Hlo|]. split; [exact Hhi|]. split.
  - apply Z.div_pos; [|lia]. unfold Qle in Hpos. cbn in Hpos. nia.
  - unfold toFixed.
    apply Qle_bool_iff in Hpos. rewrite Hpos. cbn [negb].
    assert (Hb : Qle_bool (inject_Z (10 ^ 21)) x = false).
    { apply not_true_iff_false. intros H. apply Qle_bool_iff in H.
      revert H. now apply Qlt_not_le. }
    rewrite Hb. cbv zeta.
    change (10 ^ Z.of_nat 2)%Z with 100%Z.
    cbn [fractionDigits append].
    set (frac := (scaledNearest 2 x mod 100)%Z).
    assert (Hfrac : (0 <= frac < 100)%Z) by (apply Z.mod_pos_bound; lia).
    replace (frac / 10 mod 10)%Z with (frac / 10)%Z; [reflexivity|].
    symmetry. apply Z.mod_small. split.
    + apply Z.div_pos; lia.
    + apply Z.div_lt_upper_bound; lia.
Qed.

Lemma to_uint_not_nil (n : nat) : Nat.to_uint n <> Decimal.Nil.
Proof.
  rewrite <- (DecimalNat.Unsigned.of_to n) at 1.
  rewrite DecimalNat.Unsigned.to_of. unfold Decimal.unorm.
  destruct (Decimal.nzhead (Nat.to_uint n)); discriminate.
Qed.

(** Distinct numbers print differently. *)
Lemma natToString_inj (n m : nat) :
  natToString n = natToString m -> n = m.
Proof.
  unfold natToString. intros H.
  apply (f_equal NilZero.uint_of_string) in H.
  rewrite !NilZero.usu in H by apply to_uint_not_nil.
  injection H as H. now apply DecimalNat.Unsigned.to_uint_inj.
Qed.

End JsFacts.

(** ** Properties of the calculation controller *)

Module CalculationFacts.
Import GPACalculator Controller.

Lemma differsFromCount_true (n : nat) (c : option nat) :
  differsFromCount n c = true <-> c <> Some n.
Proof.
  destruct c as [m|]; simpl.
  - rewrite negb_true_iff, Nat.eqb_neq. split.
    + intros H E. injection E as E. congruence.
    + intros H E. apply H. now subst.
  - split; [discriminate | reflexivity].
Qed.

Lemma differsFromCount_false (n : nat) (c : option nat) :
  differsFromCount n c = false <-> c = Some n.
Proof.
  destruct c as [m|]; simpl.
  - rewrite negb_false_iff, Nat.eqb_eq. split; intros H.
    + now subst.
    + now injection H.
  - split; discriminate.
Qed.

(** A filter that keeps the length keeps the list. *)
Lemma filter_same_length {A : Type} (f : A -> bool) (l : list A) :
  List.length (filter f l) = List.length l -> filter f l = l.
Proof.
  induction l as [|a l IH]; simpl; [reflexivity|].
  destruct (f a); simpl; intros H.
  - f_equal. apply IH. now injection H.
  - pose proof (filter_length_le f l). lia.
Qed.

Section Imports.

Variable calculateGPA : list Subject -> number.
Variable getGPAPercentage : number -> number.
Variable getLetterGrade : number -> string.
Variable getRemarks : number -> string.

Let calculate : State -> State * list Effect :=
  calculateResult calculateGPA getGPAPercentage getLetterGrade getRemarks.
Let resultFrom : list Subject -> Result :=
  resultOf calculateGPA getGPAPercentage getLetterGrade getRemarks.

(** The three ways through [calculateResult]. *)
Lemma calculateResult_cases (st : State) :
  let valid := filter isValidSubject (subjects st) in
  (valid = [] /\ calculate st = (st, [EToast invalidInputToast]))
  \/ (valid <> [] /\ subjectCount st <> Some (List.length valid)
      /\ calculate st = (st, [EToast incompleteDataToast]))
  \/ (valid <> [] /\ subjectCount st = Some (List.length valid)
      /\ calculate st
         = (setShowModal true (setResult (Some (resultFrom valid)) st),
            [ESetTimeout (TriggerConfetti (calculateGPA valid)) 500%nat])).
Proof.
  intros valid. subst calculate resultFrom.
  unfold calculateResult, resultOf. fold valid.
  destruct valid as [|s rest] eqn:E.
  - left. split; reflexivity.
  - right. cbn [List.length Nat.eqb].
    destruct (differsFromCount (S (List.length rest)) (subjectCount st))
      eqn:D.
    + left. apply differsFromCount_true in D.
      repeat split; [discriminate | exact D].
    + right. apply differsFromCount_false in D.
      repeat split; [discriminate | exact D].
Qed.

(** C2, as the code has it.  [calculateResult] reports "Invalid Input"
    exactly when no subject passes the filter (a name that is not blank
    after trimming, that is, not made only of the white space and line
    terminator characters of the language, and marks in [0, 100]),
    reports "Incomplete Data"
    exactly when some pass but their number is not [subjectCount], and
    otherwise stores the result computed from the subjects that pass and
    opens the overlay; these are all the subjects whenever the list has
    [subjectCount] entries. *)
Theorem calculateResult_outcome (st : State) :
  let valid := filter isValidSubject (subjects st) in
  let out := calculate st in
  (forall s, isValidSubject s = true
             <-> Js.allWhiteSpace (name s) = false
                 /\ 0 <= marks s <= 100)
  /\ (forall t, Js.allWhiteSpace t = true
                <-> exists cps,
                      Forall (fun cp => In cp Js.whiteSpaceCodePoints) cps
                      /\ t = Js.encode cps)
  /\ (outcome (snd out) = Failure EmptyInput <-> valid = [])
  /\ (outcome (snd out) = Failure IncompleteData
      <-> valid <> [] /\ subjectCount st <> Some (List.length valid))
  /\ (outcome (snd out) = Success
      <-> valid <> [] /\ subjectCount st = Some (List.length valid))
  /\ (outcome (snd out) = Success ->
      result (fst out) = Some (resultFrom valid)
      /\ showModal (fst out) = true
      /\ subjects (fst out) = subjects st
      /\ (formInvariant st -> valid = subjects st)).
Proof.
  intros valid out. split.
  { intros s. unfold isValidSubject.
    rewrite !andb_true_iff, !Qle_bool_iff, JsFacts.trim_nonEmpty.
    rewrite negb_true_iff. tauto. }
  split; [exact JsFacts.allWhiteSpace_iff|].
  destruct (calculateResult_cases st)
    as [[Hv Hc]|[[Hv [Hn Hc]]|[Hv [Hn Hc]]]];
    fold valid in Hv, Hc; try fold valid in Hn;
    subst out; rewrite Hc; cbn.
  - repeat split; try discriminate; tauto.
  - repeat split; try discriminate; tauto.
  - repeat split; try discriminate; try tauto.
    unfold formInvariant. rewrite Hn. intros Hlen.
      now apply filter_same_length.
Qed.

(** C3.  When [calculateResult] reports a validation failure, of either
    kind, the state it returns is the state it was given: the subject
    list and the stored result are unchanged, and a result that was
    [null] is still [null]. *)
Theorem calculateResult_failure_keeps_state (st : State) (e : CalcError) :
  reportedError (snd (calculate st)) = Some e ->
  fst (calculate st) = st
  /\ subjects (fst (calculate st)) = subjects st
  /\ result (fst (calculate st)) = result st
  /\ (result st = None -> result (fst (calculate st)) = None).
Proof.
  destruct (calculateResult_cases st)
    as [[_ Hc]|[[_ [_ Hc]]|[_ [_ Hc]]]]; rewrite Hc; cbn.
  - intros _. repeat split. tauto.
  - intros _. repeat split. tauto.
  - discriminate.
Qed.

(** C8.  A successful calculation schedules one callback, with the gpa it
    stored.  Running that callback starts the confetti animation when the
    gpa is at least 3 and starts nothing when it is below 3, so it starts
    something exactly when the gpa is at least 3; either way it hands the
    component state, the result included, back as it found it. *)
Theorem confetti_iff_gpa_at_least_3 (st : State) :
  outcome (snd (calculate st)) = Success ->
  exists r,
    result (fst (calculate st)) = Some r
    /\ snd (calculate st) = [ESetTimeout (TriggerConfetti (gpa r)) 500%nat]
    /\ forall callback ms st',
         In (ESetTimeout callback ms) (snd (calculate st)) ->
         (3 <= gpa r ->
          runTimer callback st' = (st', [ConfettiAnimation 1000]))
         /\ (gpa r < 3 -> runTimer callback st' = (st', []))
         /\ (snd (runTimer callback st') <> [] <-> 3 <= gpa r)
         /\ fst (runTimer callback st') = st'.
Proof.
  destruct (calculateResult_cases st)
    as [[_ Hc]|[[_ [_ Hc]]|[_ [_ Hc]]]]; rewrite Hc; cbn;
    try discriminate.
  intros _. eexists. split; [reflexivity|]. cbn.
  set (g := calculateGPA (filter isValidSubject (subjects st))).
  split; [reflexivity|].
  intros callback ms st' [Hin|[]]. injection Hin as <- _.
  cbn [runTimer fst snd]. unfold triggerConfetti.
  destruct (Qle_bool 3 g) eqn:E.
  - apply Qle_bool_iff in E. repeat split; try discriminate; try tauto.
    intros Hlt. exfalso. revert E. now apply Qlt_not_le.
  - assert (Hnot : ~ 3 <= g).
    { intros H. apply Qle_bool_iff in H. congruence. }
    repeat split; tauto.
Qed.

End Imports.

(** C2, as stated, fails: four subjects named with a single space and
    marks 50 all have a non-empty name and marks in range, so the rule
    over non-empty names says the calculation succeeds, while the code
    trims the names and reports "Invalid Input". *)
Lemma calculateResult_blank_names_counterexample :
  specOutcome Sample.blankNamesState = Success
  /\ outcome (snd (Sample.calculate Sample.blankNamesState))
     = Failure EmptyInput.
Proof. split; reflexivity. Qed.

(** A name of ideographic spaces (U+3000), or of a byte order mark (U+FEFF)
    between a space and a tab, is blank for the filter. *)
Example wide_space_name_is_blank :
  isValidSubject (mkSubject "1" "　　" 50 1) = false
  /\ isValidSubject
       (mkSubject "1" (" " ++ Js.utf8 65279 ++ Js.utf8 9) 50 1) = false
  /\ isValidSubject (mkSubject "1" "　Algèbre　" 50 1) = true
  /\ Js.trim "　Algèbre　" = "Algèbre".
Proof. repeat split. Qed.

Lemma calculateResult_outcome_witness :
  outcome (snd (Sample.calculate Sample.filledState)) = Success
  /\ result (fst (Sample.calculate Sample.filledState))
     = Some (resultOf Sample.calculateGPA Sample.getGPAPercentage
               Sample.getLetterGrade Sample.getRemarks Sample.filled)
  /\ filter isValidSubject Sample.filled = Sample.filled.
Proof.
  pose proof (calculateResult_outcome Sample.calculateGPA
                Sample.getGPAPercentage Sample.getLetterGrade
                Sample.getRemarks Sample.filledState) as H.
  cbv zeta in H. destruct H as [_ [_ [_ [_ [_ H]]]]].
  assert (Hs : outcome (snd (Sample.calculate Sample.filledState)) = Success)
    by reflexivity.
  destruct (H Hs) as [Hr [_ [_ Hall]]].
  split; [exact Hs | split; [exact Hr | apply Hall; reflexivity]].
Defined.

Lemma calculateResult_failure_keeps_state_witness :
  reportedError (snd (Sample.calculate Sample.partlyFilledState))
  = Some IncompleteData
  /\ fst (Sample.calculate Sample.partlyFilledState)
     = Sample.partlyFilledState
  /\ result (fst (Sample.calculate Sample.partlyFilledState)) = None.
Proof.
  assert (Hf : reportedError
                 (snd (Sample.calculate Sample.partlyFilledState))
               = Some IncompleteData) by reflexivity.
  destruct (calculateResult_failure_keeps_state Sample.calculateGPA
              Sample.getGPAPercentage Sample.getLetterGrade
              Sample.getRemarks Sample.partlyFilledState IncompleteData Hf)
    as [Hst [_ [_ Hnull]]].
  split; [exact Hf | split; [exact Hst | apply Hnull; reflexivity]].
Defined.

Lemma confetti_iff_gpa_at_least_3_witness :
  outcome (snd (Sample.calculate Sample.filledState)) = Success
  /\ snd (Sample.calculate Sample.filledState)
     = [ESetTimeout (TriggerConfetti (311 # 90)) 500%nat]
  /\ runTimer (TriggerConfetti (311 # 90)) Sample.filledState
     = (Sample.filledState, [ConfettiAnimation 1000]).
Proof.
  assert (Hs : outcome (snd (Sample.calculate Sample.filledState)) = Success)
    by reflexivity.
  destruct (confetti_iff_gpa_at_least_3 Sample.calculateGPA
              Sample.getGPAPercentage Sample.getLetterGrade Sample.getRemarks
              Sample.filledState Hs) as [r [Hr [_ Hrun]]].
  assert (Hgpa : gpa r = 311 # 90).
  { change (Some (mkResult (311 # 90) "B" "Good") = Some r) in Hr.
    now injection Hr as <-. }
  split; [exact Hs | split; [reflexivity|]].
  destruct (Hrun (TriggerConfetti (311 # 90)) 500%nat Sample.filledState
              (or_introl eq_refl)) as [Hfire _].
  apply Hfire. rewrite Hgpa. discriminate.
Defined.

(** Marks of 82 and 60 average to a gpa of 1.85: no confetti. *)
Example no_confetti_below_3 :
  let st := mkState false (Some 4%nat)
              [ mkSubject "1" "Calculus" 82 1;
                mkSubject "2" "Physics" 60 1;
                mkSubject "3" "English" 60 1;
                mkSubject "4" "Drawing" 82 1 ] None false in
  snd (Sample.calculate st)
  = [ESetTimeout (TriggerConfetti (740 # 400)) 500%nat]
  /\ runTimer (TriggerConfetti (740 # 400)) st = (st, []).
Proof. split; reflexivity. Qed.

End CalculationFacts.

(** ** Properties of the subject form *)

Module FormFacts.
Import GPACalculator.

Lemma sameCount_true (a b : option nat) : sameCount a b = true <-> a = b.
Proof.
  destruct a as [x|], b as [y|]; simpl;
    try (split; (discriminate || reflexivity)).
  rewrite Nat.eqb_eq. split; intros H; [now subst | now injection H].
Qed.

Lemma sameCount_false (a b : option nat) : sameCount a b = false <-> a <> b.
Proof.
  rewrite <- sameCount_true. destruct (sameCount a b); split;
    (discriminate || congruence).
Qed.

(** The list the effect installs for a count. *)
Lemma subjectCountEffect_subjects (c : option nat) (st : State) :
  subjects (subjectCountEffect (withSubjectCount c st))
  = match c with
    | Some n => map newSubject (seq 0 n)
    | None => []
    end.
Proof.
  unfold subjectCountEffect. cbn [subjectCount withSubjectCount].
  destruct c as [[|n]|]; reflexivity.
Qed.

Lemma subjectCountEffect_count (st : State) :
  subjectCount (subjectCountEffect st) = subjectCount st.
Proof.
  unfold subjectCountEffect.
  destruct (subjectCount st) as [[|n]|] eqn:E; cbn; exact E.
Qed.

(** The option handler never calls the setter with the current count. *)
Lemma onSelect_changes_count (value : nat) (st : State) :
  subjectCount st
  <> (if sameCount (Some value) (subjectCount st) then None else Some value).
Proof.
  destruct (sameCount (Some value) (subjectCount st)) eqn:E.
  - apply sameCount_true in E. rewrite <- E. discriminate.
  - apply sameCount_false in E. congruence.
Qed.

(** The ids of a fresh list are pairwise distinct. *)
Lemma newSubject_ids_NoDup (n : nat) :
  NoDup (map id (map newSubject (seq 0 n))).
Proof.
  rewrite map_map. apply NoDup_map_NoDup_ForallPairs.
  - intros x y _ _ H. cbn in H. apply JsFacts.natToString_inj in H. lia.
  - apply seq_NoDup.
Qed.

(** C5.  When the subject count is set to a new value, the subject list
    is replaced, whatever it held: for a count [n] by exactly [n] entries,
    the one at position [i] having id [i + 1] in decimal, an empty name,
    marks 0 and 1 credit hour; for [null], and for zero, by the empty
    list. *)
Theorem setSubjectCount_fresh_entries (st : State) (c : option nat) :
  subjectCount st <> c ->
  let st' := setSubjectCount c st in
  subjectCount st' = c
  /\ match c with
     | Some n =>
         List.length (subjects st') = n
         /\ (forall i, (i < n)%nat ->
             nth_error (subjects st') i
             = Some (mkSubject (Js.natToString (i + 1)) "" 0 1))
     | None => subjects st' = []
     end
  /\ (c = Some 0%nat -> subjects st' = []).
Proof.
  intros Hc st'. subst st'. unfold setSubjectCount.
  apply sameCount_false in Hc. rewrite Hc.
  rewrite subjectCountEffect_count, subjectCountEffect_subjects.
  split; [reflexivity|]. split.
  - destruct c as [n|]; [|reflexivity]. split.
    + now rewrite length_map, length_seq.
    + intros i Hi. rewrite nth_error_map, nth_error_seq.
      apply Nat.ltb_lt in Hi. now rewrite Hi.
  - intros ->. reflexivity.
Qed.

Lemma setSubjectCount_fresh_entries_witness :
  subjectCount Sample.filledState <> Some 5%nat
  /\ map id (subjects (setSubjectCount (Some 5%nat) Sample.filledState))
     = ["1"; "2"; "3"; "4"; "5"]
  /\ nth_error (subjects (setSubjectCount (Some 5%nat) Sample.filledState)) 3
     = Some (mkSubject "4" "" 0 1).
Proof.
  assert (Hc : subjectCount Sample.filledState <> Some 5%nat)
    by discriminate.
  destruct (setSubjectCount_fresh_entries Sample.filledState (Some 5%nat) Hc)
    as [_ [[_ Hnth] _]].
  split; [exact Hc | split; [reflexivity | apply Hnth; lia]].
Defined.

(** Five subjects, then three: no entry of the five survives. *)
Example resize_5_then_3 :
  subjects (setSubjectCount (Some 3%nat)
              (updateSubject "2" (SetName "Physics")
                 (setSubjectCount (Some 5%nat) initialState)))
  = [mkSubject "1" "" 0 1; mkSubject "2" "" 0 1; mkSubject "3" "" 0 1].
Proof. reflexivity. Qed.

(** C10.  Selecting the option whose value is the current count sets the
    count to [null], and with it empties the subject list: everything
    entered is discarded. *)
Theorem onSelect_current_count_clears (st : State) (value : nat) :
  subjectCount st = Some value ->
  subjectCount (onSelect value st) = None
  /\ subjects (onSelect value st) = []
  /\ open (onSelect value st) = false.
Proof.
  intros Hc. unfold onSelect, setSubjectCount.
  rewrite Hc. cbn [sameCount]. rewrite Nat.eqb_refl.
  repeat split.
Qed.

Lemma onSelect_current_count_clears_witness :
  subjectCount Sample.filledState = Some 4%nat
  /\ subjects Sample.filledState <> []
  /\ subjectCount (onSelect 4 Sample.filledState) = None
  /\ subjects (onSelect 4 Sample.filledState) = [].
Proof.
  destruct (onSelect_current_count_clears Sample.filledState 4 eq_refl)
    as [Hn [Hs _]].
  split; [reflexivity | split; [discriminate | split; assumption]].
Defined.

(** *** Editing *)

Lemma setSubjects_same (st : State) : setSubjects (subjects st) st = st.
Proof. now destruct st. Qed.

Lemma assignField_getField (u : FieldUpdate) (s : Subject) (f : Field) :
  getField f (assignField u s)
  = if fieldEqb f (field u) then value u else getField f s.
Proof. destruct u, f; reflexivity. Qed.

Lemma updateSubject_nth (i : string) (u : FieldUpdate) (st : State)
    (k : nat) :
  nth_error (subjects (updateSubject i u st)) k
  = option_map
      (fun s => if (id s =? i)%string then assignField u s else s)
      (nth_error (subjects st) k).
Proof. unfold updateSubject. cbn [subjects setSubjects]. apply nth_error_map. Qed.

(** With distinct ids, two positions holding the same id are one. *)
Lemma unique_id_position (l : list Subject) (k k' : nat) (s s' : Subject) :
  NoDup (map id l) ->
  nth_error l k = Some s -> nth_error l k' = Some s' -> id s = id s' ->
  k = k'.
Proof.
  intros Hnd Hk Hk' Hid.
  rewrite NoDup_nth_error in Hnd. apply Hnd.
  - rewrite length_map. apply nth_error_Some. congruence.
  - rewrite !nth_error_map, Hk, Hk'. cbn. now rewrite Hid.
Qed.

(** C6.  [updateSubject id field value] stores the value, whatever it is,
    in the named field of the entry with that id and keeps its other
    fields; entries with another id stay as they are, at their positions,
    so length and order are kept; with distinct ids only one position
    changes; without an entry of that id nothing changes.  The rest of
    the state is not touched. *)
Theorem updateSubject_frame (i : string) (u : FieldUpdate) (st : State) :
  let st' := updateSubject i u st in
  List.length (subjects st') = List.length (subjects st)
  /\ (forall k s, nth_error (subjects st) k = Some s -> id s = i ->
      exists s', nth_error (subjects st') k = Some s'
        /\ getField (field u) s' = value u
        /\ (forall f, f <> field u -> getField f s' = getField f s))
  /\ (forall k s, nth_error (subjects st) k = Some s -> id s <> i ->
      nth_error (subjects st') k = Some s)
  /\ (NoDup (map id (subjects st)) ->
      forall k s, nth_error (subjects st) k = Some s -> id s = i ->
      forall k', k' <> k ->
      nth_error (subjects st') k' = nth_error (subjects st) k')
  /\ ((forall s, In s (subjects st) -> id s <> i) -> st' = st)
  /\ (open st' = open st /\ subjectCount st' = subjectCount st
      /\ result st' = result st /\ showModal st' = showModal st).
Proof.
  intros st'. subst st'. repeat split.
  - unfold updateSubject. cbn [subjects setSubjects]. apply length_map.
  - intros k s Hk Hid. exists (assignField u s). repeat split.
    + rewrite updateSubject_nth, Hk. cbn.
      apply String.eqb_eq in Hid. now rewrite Hid.
    + rewrite assignField_getField.
      now destruct u.
    + intros f Hf. rewrite assignField_getField.
      destruct f, u; try reflexivity; now contradiction Hf.
  - intros k s Hk Hid. rewrite updateSubject_nth, Hk. cbn.
    apply String.eqb_neq in Hid. now rewrite Hid.
  - intros Hnd k s Hk Hid k' Hneq. rewrite updateSubject_nth.
    destruct (nth_error (subjects st) k') as [s'|] eqn:Hk'; [|reflexivity].
    cbn. destruct (String.eqb_spec (id s') i) as [E|_]; [|reflexivity].
    exfalso. apply Hneq. symmetry.
    apply (unique_id_position (subjects st) k k' s s' Hnd Hk Hk').
    congruence.
  - intros Hnone. unfold updateSubject.
    replace (map _ (subjects st)) with (subjects st);
      [apply setSubjects_same|].
    rewrite <- (map_id (subjects st)) at 1.
    apply map_ext_in. intros s Hs.
    apply Hnone, String.eqb_neq in Hs. now rewrite Hs.
Qed.

Lemma updateSubject_frame_witness :
  NoDup (map id Sample.filled)
  /\ subjects (updateSubject "2" (SetMarks 150) Sample.filledState)
     = [ mkSubject "1" "Calculus" 100 3;
         mkSubject "2" "Physics" 150 3;
         mkSubject "3" "English" 90 2;
         mkSubject "4" "Drawing" 0 1 ]
  /\ nth_error
       (subjects (updateSubject "2" (SetMarks 150) Sample.filledState)) 2
     = Some (mkSubject "3" "English" 90 2)
  /\ updateSubject "9" (SetMarks 150) Sample.filledState
     = Sample.filledState.
Proof.
  assert (Hnd : NoDup (map id Sample.filled)).
  { apply (newSubject_ids_NoDup 4). }
  pose proof (updateSubject_frame "2" (SetMarks 150) Sample.filledState)
    as H2.
  pose proof (updateSubject_frame "9" (SetMarks 150) Sample.filledState)
    as H9.
  cbv zeta in H2, H9.
  destruct H2 as [_ [_ [_ [Huniq _]]]].
  destruct H9 as [_ [_ [_ [_ [Hnone _]]]]].
  split; [exact Hnd | split; [reflexivity | split]].
  - apply (Huniq Hnd 1%nat (mkSubject "2" "Physics" 82 3));
      [reflexivity | reflexivity | discriminate].
  - apply Hnone. intros s Hs. cbn in Hs.
    destruct Hs as [<-|[<-|[<-|[<-|[]]]]]; discriminate.
Defined.

(** *** The form invariant *)

Lemma formInvariant_initial : formInvariant initialState.
Proof. reflexivity. Qed.

Lemma formInvariant_onSelect (value : nat) (st : State) :
  formInvariant (onSelect value st).
Proof.
  unfold onSelect, formInvariant. cbn [subjects subjectCount setOpen].
  pose proof (onSelect_changes_count value st) as Hc.
  set (c := if sameCount (Some value) (subjectCount st) then None
            else Some value) in *.
  unfold setSubjectCount. apply sameCount_false in Hc. rewrite Hc.
  rewrite subjectCountEffect_count, subjectCountEffect_subjects. cbn.
  destruct c as [n|]; [|reflexivity].
  now rewrite length_map, length_seq.
Qed.

Lemma formInvariant_updateSubject (i : string) (u : FieldUpdate)
    (st : State) :
  formInvariant st -> formInvariant (updateSubject i u st).
Proof.
  unfold formInvariant, updateSubject. cbn [subjects subjectCount setSubjects].
  now rewrite length_map.
Qed.

End FormFacts.

(** ** Properties of the overlay and of the export *)

Module ExportFacts.
Import GPACalculator.

(** C4, as stated, fails: closing the overlay that shows a result leaves
    the result stored. *)
Lemma onClose_keeps_result_counterexample :
  ~ (forall st : State,
       result st <> None -> showModal st = true ->
       result (onClose st) = None).
Proof.
  intros H. specialize (H Sample.resultShownState).
  cbn in H. discriminate H; [discriminate | reflexivity].
Qed.

(** C4, as the code has it.  Dismissing the overlay only hides it:
    [showModal] becomes false, and the stored result, the subjects, the
    count and the popover flag are what they were. *)
Theorem onClose_hides_overlay_only (st : State) :
  showModal (onClose st) = false
  /\ result (onClose st) = result st
  /\ subjects (onClose st) = subjects st
  /\ subjectCount (onClose st) = subjectCount st
  /\ open (onClose st) = open st.
Proof. repeat split. Qed.

Section PdfExport.

Variable numberToString : number -> string.

(** Every dismiss gesture on the open overlay is [onClose]. *)
Lemma modalGesture_dismiss (env : Environment) (st : State) :
  showModal st = true ->
  modalGesture numberToString env EscapeKey st = (onClose st, [])
  /\ modalGesture numberToString env BackdropClick st = (onClose st, [])
  /\ modalGesture numberToString env CloseClick st = (onClose st, []).
Proof. unfold modalGesture. intros ->. repeat split. Qed.

(** Scenario E: without a result the export does nothing. *)
Lemma exportToPDF_without_result (env : Environment) (st : State) :
  result st = None -> exportToPDF numberToString env st = (st, []).
Proof. unfold exportToPDF. now intros ->. Qed.

(** C7.  With a result stored: when no jsPDF call throws, the document
    is saved, "Export Complete" is reported and the overlay is closed;
    when one throws, "Export Error" is reported and the state is the one
    before the call, so an open overlay stays open and the result is
    kept. *)
Theorem exportToPDF_outcome (env : Environment) (st : State) (r : Result) :
  result st = Some r ->
  let calls := pdfCalls numberToString env r (subjects st) in
  let out := exportToPDF numberToString env st in
  (jsPdfThrows env calls = false ->
     showModal (fst out) = false
     /\ result (fst out) = Some r
     /\ subjects (fst out) = subjects st
     /\ snd out = [EPdf calls; EToast exportCompleteToast])
  /\ (jsPdfThrows env calls = true ->
      fst out = st
      /\ result (fst out) = Some r
      /\ (showModal st = true -> showModal (fst out) = true)
      /\ In (EToast exportErrorToast) (snd out)
      /\ ~ In (EToast exportCompleteToast) (snd out)).
Proof.
  intros Hr calls out. subst out. unfold exportToPDF, jsPdfThrows.
  rewrite Hr. fold calls.
  destruct (jsPdfThrowsAt env) as [k|] eqn:Hk.
  - destruct (k <? List.length calls)%nat eqn:Hlt; cbn.
    + split; [discriminate|]. intros _.
      split; [reflexivity|]. split; [exact Hr|].
      split; [tauto|]. split.
      * right. right. now left.
      * intros [H|[H|[H|[]]]]; discriminate.
    + split; [|discriminate]. intros _. repeat split; assumption.
  - cbn. split; [|discriminate]. intros _. repeat split; assumption.
Qed.

(** *** The document *)

Lemma fold_left_subjectStep (l : list Subject) (index yPosition : nat)
    (calls : list PdfOp) :
  fold_left (subjectStep numberToString)
    (combine (seq index (List.length l)) l) (calls, yPosition)
  = ((calls ++ fst (subjectCalls numberToString index yPosition l))%list,
     snd (subjectCalls numberToString index yPosition l)).
Proof.
  revert index yPosition calls.
  induction l as [|s rest IH]; intros index yPosition calls.
  - cbn. now rewrite app_nil_r.
  - cbn [List.length seq combine fold_left subjectStep subjectCalls].
    destruct (270 <? yPosition)%nat;
      rewrite IH;
      destruct (subjectCalls numberToString (S index) _ rest)
        as [body yEnd]; cbn [fst snd];
      now rewrite <- !app_assoc.
Qed.

Lemma textsOf_app (a b : list PdfOp) :
  textsOf (a ++ b) = (textsOf a ++ textsOf b)%list.
Proof. apply flat_map_app. Qed.

Lemma textsOf_subjectCalls (l : list Subject) (index yPosition : nat) :
  textsOf (fst (subjectCalls numberToString index yPosition l))
  = map (fun e => subjectLine numberToString (fst e) (snd e))
        (combine (seq index (List.length l)) l).
Proof.
  revert index yPosition.
  induction l as [|s rest IH]; intros index yPosition; [reflexivity|].
  cbn [subjectCalls List.length seq combine map fst snd].
  specialize (IH (S index)).
  destruct (270 <? yPosition)%nat;
    match goal with
    | |- context [subjectCalls numberToString (S index) ?y rest] =>
        specialize (IH y);
        destruct (subjectCalls numberToString (S index) y rest)
    end; cbn in *; now rewrite IH.
Qed.

Lemma indexed_nth (l : list Subject) (start k : nat) :
  nth_error (combine (seq start (List.length l)) l) k
  = option_map (fun s => ((start + k)%nat, s)) (nth_error l k).
Proof.
  revert start k. induction l as [|s rest IH]; intros start k.
  - now destruct k.
  - destruct k as [|k]; cbn.
    + now rewrite Nat.add_0_r.
    + rewrite IH. now rewrite Nat.add_succ_r.
Qed.

Lemma scanPage_app (limit lastY : nat) (a b : list PdfOp) :
  scanPage limit lastY (a ++ b)
  = match scanPage limit lastY a with
    | Some y => scanPage limit y b
    | None => None
    end.
Proof.
  revert lastY. induction a as [|c a IH]; intros lastY; [reflexivity|].
  destruct c; cbn [scanPage app]; try apply IH.
  destruct ((lastY <? y) && (y <=? limit))%nat; [apply IH | reflexivity].
Qed.

Lemma scanPage_text (limit lastY y : nat) (t : string) (x : nat)
    (rest : list PdfOp) :
  (lastY < y)%nat -> (y <= limit)%nat ->
  scanPage limit lastY (Text t x y :: rest) = scanPage limit y rest.
Proof.
  intros H1 H2. cbn [scanPage].
  apply Nat.ltb_lt in H1. apply Nat.leb_le in H2. now rewrite H1, H2.
Qed.

Lemma scanPage_addPage (limit lastY : nat) (rest : list PdfOp) :
  scanPage limit lastY (AddPage :: rest) = scanPage limit 0 rest.
Proof. reflexivity. Qed.

(** The loop keeps every subject line on its page. *)
Lemma scanPage_subjectCalls (l : list Subject)
    (index lastY yPosition : nat) :
  (lastY < yPosition)%nat -> (yPosition <= pageBottom)%nat ->
  exists y,
    scanPage pageBottom lastY
      (fst (subjectCalls numberToString index yPosition l)) = Some y
    /\ (y < snd (subjectCalls numberToString index yPosition l))%nat
    /\ (snd (subjectCalls numberToString index yPosition l)
        <= pageBottom)%nat.
Proof.
  unfold pageBottom. revert index lastY yPosition.
  induction l as [|s rest IH]; intros index lastY yPosition Hlt Hle.
  - exists lastY. cbn. auto.
  - cbn [subjectCalls].
    destruct (Nat.ltb_spec 270 yPosition) as [Hnew|Hsame].
    + destruct (IH (S index) 20%nat (20 + 10)%nat) as [y [Hy Hb]];
        [lia|lia|].
      remember (subjectCalls numberToString (S index) (20 + 10) rest)
        as p eqn:Ep.
      destruct p as [body yEnd].
      exists y. cbn [fst snd app] in *. split; [|exact Hb].
      rewrite scanPage_addPage, scanPage_text by lia. exact Hy.
    + destruct (IH (S index) yPosition (yPosition + 10)%nat)
        as [y [Hy Hb]]; [lia|lia|].
      remember (subjectCalls numberToString (S index) (yPosition + 10) rest)
        as p eqn:Ep.
      destruct p as [body yEnd].
      exists y. cbn [fst snd app] in *. split; [|exact Hb].
      rewrite scanPage_text by lia. exact Hy.
Qed.

Lemma scanPage_pdfFooter (env : Environment) (calls : list PdfOp)
    (lastY yPosition : nat) :
  scanPage pageBottom 0 calls = Some lastY ->
  (lastY < yPosition)%nat -> (yPosition <= pageBottom)%nat ->
  exists y,
    scanPage pageBottom 0 (pdfFooter env (calls, yPosition)) = Some y.
Proof.
  unfold pageBottom, pdfFooter. intros Hc Hlt Hle.
  destruct (Nat.ltb_spec 250 yPosition) as [Hnew|Hsame].
  - rewrite <- app_assoc, scanPage_app, Hc. cbn. eauto.
  - rewrite scanPage_app, Hc.
    do 2 match goal with
         | |- context [scanPage ?b ?y (?c :: ?rest)] =>
             change (scanPage b y (c :: rest)) with (scanPage b y rest)
         end.
    rewrite scanPage_text by lia. rewrite scanPage_text by lia.
    cbn. eauto.
Qed.

(** C9.  The document written for a result and a subject list holds,
    in this order: the title, the gpa with two decimals, the grade, the
    remarks, one line per subject in list order, reading
    "<index>. <name>: <marks>/100 (<creditHours> credit hours)" with
    the index counting from 1, and the footer with the generation date.
    For a gpa from 0 up to 1e21, which covers the range 0 to 4 of a
    result, the gpa text is the nearest hundredth, a tie going up, written
    as its whole part, a point and two digits.  Every text lies below the
    one before it on its page and not below the page bottom: the loop and
    the footer start a new page instead. *)
Theorem pdfCalls_content (env : Environment) (r : Result)
    (l : list Subject) :
  let calls := pdfCalls numberToString env r l in
  textsOf calls
  = List.app
      [ "UoH GPA Calculator Results";
        "Results:";
        "GPA: " ++ Js.toFixed numberToString 2 (gpa r);
        "Grade: " ++ grade r;
        "Remarks: " ++ remarks r;
        "Subject Details:" ]
      (List.app
         (map (fun e => subjectLine numberToString (fst e) (snd e))
              (indexed l))
         [ "Generated on: " ++ localeDateString env;
           "Prepared by students of Batch 2024 – AI Section A & B" ])
  /\ (forall k s, nth_error l k = Some s ->
      nth_error (textsOf calls) (6 + k)
      = Some (Js.natToString (k + 1) ++ ". " ++ name s ++ ": "
              ++ numberToString (marks s) ++ "/100 ("
              ++ Js.NToString (creditHours s) ++ " credit hours)"))
  /\ (0 <= gpa r -> gpa r < inject_Z (10 ^ 21) ->
      exists n : Z,
        inject_Z n <= gpa r * 100 + (1 # 2)
        /\ gpa r * 100 + (1 # 2) < inject_Z n + 1
        /\ (0 <= n)%Z
        /\ Js.toFixed numberToString 2 (gpa r)
           = Js.NToString (Z.to_N (n / 100)) ++ "."
             ++ String (Js.digitChar (n mod 100 / 10))
                  (String (Js.digitChar (n mod 100 mod 10)) ""))
  /\ (exists y, scanPage pageBottom 0 calls = Some y).
Proof.
  intros calls.
  assert (Htexts :
    textsOf calls
    = List.app
        [ "UoH GPA Calculator Results";
          "Results:";
          "GPA: " ++ Js.toFixed numberToString 2 (gpa r);
          "Grade: " ++ grade r;
          "Remarks: " ++ remarks r;
          "Subject Details:" ]
        (List.app
           (map (fun e => subjectLine numberToString (fst e) (snd e))
                (indexed l))
           [ "Generated on: " ++ localeDateString env;
             "Prepared by students of Batch 2024 – AI Section A & B" ])).
  { subst calls. unfold pdfCalls, indexed.
    rewrite fold_left_subjectStep. unfold pdfFooter.
    destruct (250 <? _)%nat;
      rewrite ?textsOf_app, textsOf_subjectCalls; cbn;
      now rewrite <- ?app_assoc. }
  split; [exact Htexts|]. split; [|split].
  - intros k s Hk. rewrite Htexts.
    change (6 + k)%nat with (List.length
      [ "UoH GPA Calculator Results"; "Results:";
        "GPA: " ++ Js.toFixed numberToString 2 (gpa r); "Grade: " ++ grade r;
        "Remarks: " ++ remarks r; "Subject Details:" ] + k)%nat.
    rewrite nth_error_app2 by lia.
    replace (_ + k - _)%nat with k by (cbn; lia).
    rewrite nth_error_app1.
    + unfold indexed. rewrite nth_error_map, indexed_nth, Hk.
      reflexivity.
    + rewrite length_map. unfold indexed.
      rewrite length_combine, length_seq, Nat.min_id.
      apply nth_error_Some. congruence.
  - apply JsFacts.toFixed_2_nearest_hundredth.
  - subst calls. unfold pdfCalls, indexed.
    rewrite fold_left_subjectStep.
    destruct (scanPage_subjectCalls l 0 105 120) as [y [Hy [Hlt Hle]]];
      [lia | unfold pageBottom; lia |].
    apply (scanPage_pdfFooter env _ y); [|exact Hlt|exact Hle].
    rewrite scanPage_app.
    replace (scanPage pageBottom 0 (pdfHeader numberToString r))
      with (Some 105%nat)
      by reflexivity.
    exact Hy.
Qed.

End PdfExport.

Lemma exportToPDF_outcome_witness :
  result Sample.resultShownState = Some (mkResult (311 # 90) "B" "Good")
  /\ showModal Sample.resultShownState = true
  /\ showModal
       (fst (exportToPDF Sample.numberToString Sample.today
               Sample.resultShownState)) = false
  /\ fst (exportToPDF Sample.numberToString Sample.brokenPdf
            Sample.resultShownState) = Sample.resultShownState
  /\ showModal
       (fst (exportToPDF Sample.numberToString Sample.brokenPdf
               Sample.resultShownState)) = true.
Proof.
  pose proof (exportToPDF_outcome Sample.numberToString Sample.today
                Sample.resultShownState _ eq_refl) as Hok.
  pose proof (exportToPDF_outcome Sample.numberToString Sample.brokenPdf
                Sample.resultShownState _ eq_refl) as Hbad.
  cbv zeta in Hok, Hbad.
  destruct Hok as [Hok _]. destruct Hbad as [_ Hbad].
  destruct (Hok eq_refl) as [Hclosed _].
  destruct (Hbad eq_refl) as [Hsame [_ [Hopen _]]].
  split; [reflexivity | split; [reflexivity | split; [exact Hclosed|]]].
  split; [exact Hsame | apply Hopen; reflexivity].
Defined.

Lemma pdfCalls_content_witness :
  nth_error Sample.filled 1 = Some (mkSubject "2" "Physics" 82 3)
  /\ nth_error
       (textsOf (pdfCalls Sample.numberToString Sample.today
                   (mkResult (311 # 90) "B" "Good") Sample.filled)) 7
     = Some "2. Physics: 82/100 (3 credit hours)"
  /\ nth_error
       (textsOf (pdfCalls Sample.numberToString Sample.today
                   (mkResult (311 # 90) "B" "Good") Sample.filled)) 2
     = Some "GPA: 3.46"
  /\ 0 <= 311 # 90
  /\ 311 # 90 < inject_Z (10 ^ 21)
  /\ exists n : Z,
       inject_Z n <= (311 # 90) * 100 + (1 # 2)
       /\ (311 # 90) * 100 + (1 # 2) < inject_Z n + 1
       /\ (0 <= n)%Z
       /\ "3.46"
          = Js.NToString (Z.to_N (n / 100)) ++ "."
            ++ String (Js.digitChar (n mod 100 / 10))
                 (String (Js.digitChar (n mod 100 mod 10)) "").
Proof.
  pose proof (pdfCalls_content Sample.numberToString Sample.today
                (mkResult (311 # 90) "B" "Good") Sample.filled) as H.
  cbv zeta in H. destruct H as [Htexts [Hline [Hgpa _]]].
  assert (Hlo : 0 <= 311 # 90) by discriminate.
  assert (Hhi : 311 # 90 < inject_Z (10 ^ 21)) by reflexivity.
  split; [reflexivity|].
  split; [exact (Hline 1%nat (mkSubject "2" "Physics" 82 3) eq_refl)|].
  split; [rewrite Htexts; reflexivity|].
  split; [exact Hlo|]. split; [exact Hhi|].
  exact (Hgpa Hlo Hhi).
Defined.

(** The texts of the document for the four sample subjects. *)
Example document_texts :
  textsOf (pdfCalls Sample.numberToString Sample.today
             (mkResult (311 # 90) "B" "Good") Sample.filled)
  = [ "UoH GPA Calculator Results";
      "Results:";
      "GPA: 3.46";
      "Grade: B";
      "Remarks: Good";
      "Subject Details:";
      "1. Calculus: 100/100 (3 credit hours)";
      "2. Physics: 82/100 (3 credit hours)";
      "3. English: 90/100 (2 credit hours)";
      "4. Drawing: 0/100 (1 credit hours)";
      "Generated on: 11/2/2026";
      "Prepared by students of Batch 2024 – AI Section A & B" ].
Proof. reflexivity. Qed.

(** Sixteen subject lines fill the first page; the seventeenth starts the
    second. *)
Example seventeenth_subject_on_new_page :
  let calls :=
    fst (subjectCalls Sample.numberToString 0 120
           (repeat (mkSubject "1" "Algebra" 90 3) 17)) in
  nth_error calls 15 = Some (Text "16. Algebra: 90/100 (3 credit hours)" 30 270)
  /\ nth_error calls 16 = Some AddPage
  /\ nth_error calls 17 = Some (Text "17. Algebra: 90/100 (3 credit hours)" 30 20).
Proof. repeat split. Qed.

End ExportFacts.

(** ** The form invariant holds in every state of the component *)

Module AppFacts.
Import GPACalculator.

Section App.

Variable calculateGPA : list Subject -> number.
Variable getGPAPercentage : number -> number.
Variable getLetterGrade : number -> string.
Variable getRemarks : number -> string.
Variable numberToString : number -> string.

Lemma formInvariant_calculateResult (st : State) :
  formInvariant st ->
  formInvariant
    (fst (calculateResult calculateGPA getGPAPercentage getLetterGrade
            getRemarks st)).
Proof.
  intros H.
  destruct (CalculationFacts.calculateResult_cases calculateGPA
              getGPAPercentage getLetterGrade getRemarks st)
    as [[_ Hc]|[[_ [_ Hc]]|[_ [_ Hc]]]]; rewrite Hc; exact H.
Qed.

Lemma formInvariant_exportToPDF (env : Environment) (st : State) :
  formInvariant st ->
  formInvariant (fst (exportToPDF numberToString env st)).
Proof.
  intros H. unfold exportToPDF.
  destruct (result st); [|exact H].
  destruct (jsPdfThrowsAt env) as [k|]; [|exact H].
  destruct (k <? _)%nat; exact H.
Qed.

Lemma formInvariant_modalGesture (env : Environment) (g : ModalGesture)
    (st : State) :
  formInvariant st ->
  formInvariant (fst (modalGesture numberToString env g st)).
Proof.
  intros H. unfold modalGesture.
  destruct (showModal st); [|exact H].
  destruct g; try exact H. now apply formInvariant_exportToPDF.
Qed.

Theorem reachable_formInvariant (st : State) :
  reachable calculateGPA getGPAPercentage getLetterGrade getRemarks
    numberToString st ->
  formInvariant st.
Proof.
  induction 1 as [|e st _ IH].
  - apply FormFacts.formInvariant_initial.
  - destruct e as [value|i u| |env g]; cbn [handle].
    + destruct (existsb _ _); [|exact IH].
      apply FormFacts.formInvariant_onSelect.
    + destruct (rendersForm st); [|exact IH].
      now apply FormFacts.formInvariant_updateSubject.
    + destruct (rendersForm st); [|exact IH].
      now apply formInvariant_calculateResult.
    + now apply formInvariant_modalGesture.
Qed.

End App.

End AppFacts.

(** ** Properties of the overlay's handlers *)

Module OverlayFacts.
Import GPACalculator ResultModal.

(** The fuel of [path] is enough: every path ends at the container. *)
Lemma path_reaches_container (target : Node) :
  last (path target) target = Container.
Proof. destruct target; reflexivity. Qed.

(** The callbacks of a click, target by target. *)
Lemma click_table (target : Node) :
  click target
  = match target with
    | Container | Backdrop | CloseButton | CloseIcon => [OnClose]
    | ExportButton | ExportIcon => [OnExport]
    | Content | Shimmer | Header | Results | ExportWrapper => []
    end.
Proof. destruct target; reflexivity. Qed.

(** X1.  A click on the overlay calls at most one callback, whatever it
    lands on, and never both [onClose] and [onExport]: [onClose] exactly
    for the container, the backdrop and the close button with its icon,
    [onExport] exactly for the export button with its icon. *)
Theorem click_calls_one_callback (target : Node) :
  (List.length (click target) <= 1)%nat
  /\ ~ (In OnClose (click target) /\ In OnExport (click target))
  /\ (In OnClose (click target)
      <-> In target [Container; Backdrop; CloseButton; CloseIcon])
  /\ (In OnExport (click target) <-> In target [ExportButton; ExportIcon]).
Proof.
  rewrite click_table.
  destruct target; cbn; repeat split; try lia; try tauto;
    intuition discriminate.
Qed.

Lemma click_calls_one_callback_witness :
  In ExportIcon [ExportButton; ExportIcon]
  /\ In OnExport (click ExportIcon)
  /\ ~ In OnClose (click ExportIcon).
Proof.
  destruct (click_calls_one_callback ExportIcon) as [_ [Hboth [_ Hexport]]].
  assert (Hin : In ExportIcon [ExportButton; ExportIcon])
    by (right; left; reflexivity).
  split; [exact Hin|]. split; [now apply Hexport|].
  intros Hclose. apply Hboth. split; [exact Hclose | now apply Hexport].
Defined.

Section Props.

Variable numberToString : number -> string.

(** An export closes the overlay or leaves the state alone. *)
Lemma exportToPDF_state (env : Environment) (st : State) :
  fst (exportToPDF numberToString env st) = st
  \/ (result st <> None
      /\ fst (exportToPDF numberToString env st) = setShowModal false st).
Proof.
  unfold exportToPDF. destruct (result st) as [r|] eqn:Hr; [|now left].
  destruct (jsPdfThrowsAt env) as [k|].
  - destruct (k <? _)%nat; [now left | right; split; [discriminate|reflexivity]].
  - right. split; [discriminate|reflexivity].
Qed.

Lemma modalClick_state (env : Environment) (target : Node) (st : State) :
  fst (modalClick numberToString env target st) = st
  \/ (showModal st = true
      /\ fst (modalClick numberToString env target st)
         = setShowModal false st).
Proof.
  unfold modalClick. destruct (showModal st) eqn:Hs; [|now left].
  rewrite click_table.
  destruct target; cbn [callAll call fst];
    try (now left); try (right; split; reflexivity).
  all: destruct (exportToPDF_state env st) as [E|[_ E]];
    destruct (exportToPDF numberToString env st) as [st1 effects1];
    cbn [fst] in *; subst st1; [now left | right; split; reflexivity].
Qed.

Lemma modalKeydown_state (key : string) (st : State) :
  modalKeydown key st = st
  \/ (showModal st = true /\ key = "Escape"
      /\ modalKeydown key st = setShowModal false st).
Proof.
  unfold modalKeydown. destruct (showModal st); [|now left]. cbn.
  destruct (String.eqb_spec key "Escape") as [->|_]; [|now left].
  right. repeat split.
Qed.

(** X2.  No click on the overlay and no key changes the subjects, the
    subject count or the stored result, and none of them opens the overlay:
    all they can do is close it.  A key other than Escape does nothing. *)
Theorem overlay_input_only_closes (env : Environment) (target : Node)
    (key : string) (st : State) :
  let clicked := fst (modalClick numberToString env target st) in
  let pressed := modalKeydown key st in
  (subjects clicked = subjects st /\ subjectCount clicked = subjectCount st
   /\ result clicked = result st
   /\ (showModal clicked = true -> showModal st = true))
  /\ (subjects pressed = subjects st /\ subjectCount pressed = subjectCount st
      /\ result pressed = result st
      /\ (showModal pressed = true -> showModal st = true))
  /\ (key <> "Escape" -> pressed = st)
  /\ (showModal st = false -> clicked = st /\ pressed = st).
Proof.
  intros clicked pressed. subst clicked pressed.
  destruct (modalClick_state env target st) as [Ec|[Hc Ec]];
    destruct (modalKeydown_state key st) as [Ek|[Hk [Hkey Ek]]];
    rewrite Ec, Ek; cbn;
    repeat split; try tauto; try congruence; try discriminate.
Qed.

End Props.

Lemma overlay_input_only_closes_witness :
  modalKeydown "Enter" Sample.resultShownState = Sample.resultShownState
  /\ showModal (modalKeydown "Escape" Sample.resultShownState) = false.
Proof.
  pose proof (overlay_input_only_closes Sample.numberToString Sample.today
                Content "Enter" Sample.resultShownState) as H.
  cbv zeta in H. destruct H as [_ [_ [Hother _]]].
  split; [apply Hother; discriminate | reflexivity].
Defined.

End OverlayFacts.

(** ** Invariants of the page *)

Module UiFacts.
Import GPACalculator Controller Form.

(** What [onSelect] leaves behind. *)
Lemma onSelect_state (value : nat) (st : State) :
  let c := if sameCount (Some value) (subjectCount st) then None
           else Some value in
  onSelect value st
  = mkState false c
      (match c with Some n => map newSubject (seq 0 n) | None => [] end)
      (result st) (showModal st).
Proof.
  intros c. unfold onSelect.
  pose proof (FormFacts.onSelect_changes_count value st) as Hc. fold c in Hc.
  fold c. unfold setSubjectCount.
  apply FormFacts.sameCount_false in Hc. rewrite Hc.
  unfold subjectCountEffect, setOpen. cbn [subjectCount withSubjectCount].
  destruct c as [[|n]|]; reflexivity.
Qed.

Lemma In_subjectOptions (value : nat) :
  existsb (Nat.eqb value) subjectOptions = true <-> In value subjectOptions.
Proof.
  rewrite existsb_exists. split.
  - intros [x [Hx E]]. apply Nat.eqb_eq in E. now subst.
  - intros H. exists value. split; [exact H | apply Nat.eqb_refl].
Qed.

Section App.

Variable calculateGPA : list Subject -> number.
Variable getGPAPercentage : number -> number.
Variable getLetterGrade : number -> string.
Variable getRemarks : number -> string.
Variable numberToString : number -> string.

Let calculate : State -> State * list Effect :=
  calculateResult calculateGPA getGPAPercentage getLetterGrade getRemarks.
Let resultFrom : list Subject -> Result :=
  resultOf calculateGPA getGPAPercentage getLetterGrade getRemarks.
Let step : Event -> State -> State * list Effect :=
  handle calculateGPA getGPAPercentage getLetterGrade getRemarks
    numberToString.
Let uiStep : UiEvent -> State -> State * list Effect :=
  uiHandle calculateGPA getGPAPercentage getLetterGrade getRemarks
    numberToString.
Let canReach : State -> Prop :=
  reachable calculateGPA getGPAPercentage getLetterGrade getRemarks
    numberToString.
Let uiCanReach : State -> Prop :=
  uiReachable calculateGPA getGPAPercentage getLetterGrade getRemarks
    numberToString.

(** The state after a calculation. *)
Lemma calculate_state (st : State) :
  fst (calculate st) = st
  \/ (filter isValidSubject (subjects st) <> []
      /\ subjectCount st
         = Some (List.length (filter isValidSubject (subjects st)))
      /\ fst (calculate st)
         = setShowModal true
             (setResult
                (Some (resultFrom (filter isValidSubject (subjects st))))
                st)).
Proof.
  destruct (CalculationFacts.calculateResult_cases calculateGPA
              getGPAPercentage getLetterGrade getRemarks st)
    as [[_ Hc]|[[_ [_ Hc]]|[Hv [Hn Hc]]]]; subst calculate resultFrom;
    rewrite Hc; [now left | now left | right; repeat split; assumption].
Qed.

(** The five things an event can do to the state. *)
Lemma handle_cases (e : Event) (st : State) :
  fst (step e st) = st
  \/ (exists value, In value subjectOptions
                    /\ fst (step e st) = onSelect value st)
  \/ (exists i u, rendersForm st = true
                  /\ fst (step e st) = updateSubject i u st)
  \/ (e = ClickCalculate /\ rendersForm st = true
      /\ fst (step e st) = fst (calculate st))
  \/ (showModal st = true /\ fst (step e st) = setShowModal false st).
Proof.
  subst step calculate. destruct e as [value|i u| |env g]; cbn [handle].
  - destruct (existsb _ _) eqn:E; [|now left].
    right. left. exists value. split; [now apply In_subjectOptions|reflexivity].
  - destruct (rendersForm st) eqn:E; [|now left].
    right. right. left. now exists i, u.
  - destruct (rendersForm st) eqn:E; [|now left].
    right. right. right. left. repeat split.
  - unfold modalGesture. destruct (showModal st) eqn:E; [|now left].
    destruct g; try (right; right; right; right; split; reflexivity).
    destruct (OverlayFacts.exportToPDF_state numberToString env st)
      as [H|[_ H]]; [now left|].
    right. right. right. right. split; [reflexivity | exact H].
Qed.

Lemma uiHandle_cases (e : UiEvent) (st : State) :
  fst (uiStep e st) = st
  \/ (exists value, In value subjectOptions
                    /\ fst (uiStep e st) = onSelect value st)
  \/ (exists k s input,
        nth_error (subjects st) k = Some s /\ offered input = true
        /\ rendersForm st = true
        /\ e = ChangeRow k input
        /\ fst (uiStep e st) = updateSubject (id s) (rowUpdate input) st)
  \/ (e = PressCalculate /\ rendersForm st = true
      /\ fst (uiStep e st) = fst (calculate st))
  \/ (showModal st = true /\ fst (uiStep e st) = setShowModal false st).
Proof.
  subst uiStep calculate.
  destruct e as [value|k input| |env target|key|callback]; cbn [uiHandle fst].
  - destruct (existsb _ _) eqn:E; [|now left].
    right. left. exists value. split; [now apply In_subjectOptions|reflexivity].
  - unfold onRowChange.
    destruct (rendersForm st) eqn:Hr; [|now left].
    destruct (offered input) eqn:Ho; [|now left]. cbn [andb].
    destruct (nth_error (subjects st) k) as [s|] eqn:Hk; [|now left].
    right. right. left. exists k, s, input. repeat split; assumption.
  - destruct (rendersForm st) eqn:E; [|now left].
    right. right. right. left. repeat split.
  - destruct (OverlayFacts.modalClick_state numberToString env target st)
      as [H|[Hs H]]; [now left|].
    right. right. right. right. now split.
  - destruct (OverlayFacts.modalKeydown_state key st) as [H|[Hs [_ H]]];
      [now left|].
    right. right. right. right. now split.
  - destruct callback. now left.
Qed.

(** Every state of the page is a state of the component. *)
Lemma uiReachable_reachable (st : State) : uiCanReach st -> canReach st.
Proof.
  subst uiCanReach canReach. induction 1 as [|e st _ IH].
  - constructor.
  - destruct (uiHandle_cases e st)
      as [H|[[value [Hv H]]|[[k [s [input [_ [_ [Hr [_ H]]]]]]]
                             |[[_ [Hr H]]|[Hs H]]]]];
      subst uiStep calculate; cbv beta in H; rewrite H.
    + exact IH.
    + apply In_subjectOptions in Hv.
      pose proof (reachable_step calculateGPA getGPAPercentage getLetterGrade
                    getRemarks numberToString (SelectOption value) st IH) as R.
      cbn [handle] in R. now rewrite Hv in R.
    + pose proof (reachable_step calculateGPA getGPAPercentage getLetterGrade
                    getRemarks numberToString
                    (EditField (id s) (rowUpdate input)) st IH) as R.
      cbn [handle] in R. now rewrite Hr in R.
    + pose proof (reachable_step calculateGPA getGPAPercentage getLetterGrade
                    getRemarks numberToString ClickCalculate st IH) as R.
      cbn [handle] in R. now rewrite Hr in R.
    + pose proof (reachable_step calculateGPA getGPAPercentage getLetterGrade
                    getRemarks numberToString
                    (OverlayGesture Sample.today CloseClick) st IH) as R.
      cbn [handle] in R. unfold modalGesture in R. now rewrite Hs in R.
Qed.

Lemma uiRun_reachable (events : list UiEvent) (st : State) :
  uiCanReach st ->
  uiCanReach
    (uiRun calculateGPA getGPAPercentage getLetterGrade getRemarks
       numberToString events st).
Proof.
  subst uiCanReach. revert st.
  induction events as [|e rest IH]; intros st H; [exact H|].
  cbn [uiRun]. apply IH. now constructor.
Qed.

(** *** The overlay and the stored result *)

Lemma overlay_result_invariant (st : State) :
  canReach st -> showModal st = true -> exists r, result st = Some r.
Proof.
  unfold canReach. induction 1 as [|e st _ IH]; [discriminate|].
  destruct (handle_cases e st)
    as [H|[[value [_ H]]|[[i [u [_ H]]]|[[_ [_ H]]|[_ H]]]]];
    unfold step, calculate in H; rewrite H.
  - exact IH.
  - rewrite onSelect_state. exact IH.
  - exact IH.
  - destruct (calculate_state st) as [E|[_ [_ E]]];
      unfold calculate, resultFrom in E; rewrite E.
    + exact IH.
    + intros _. eexists. reflexivity.
  - discriminate.
Qed.

(** X3.  In every state the component can reach, an open overlay has a
    stored result, and that is the result it shows: the fallback
    [{ gpa: 0, grade: '', remarks: '' }] is never displayed. *)
Theorem open_overlay_has_result (st : State) :
  canReach st ->
  showModal st = true ->
  exists r, result st = Some r /\ ResultModal.shownResult st = r.
Proof.
  intros Hreach Hopen.
  destruct (overlay_result_invariant st Hreach Hopen) as [r Hr].
  exists r. split; [exact Hr|]. unfold ResultModal.shownResult.
  now rewrite Hr.
Qed.

(** X4.  No event clears the stored result: after any event the result is
    the one stored before, unless the event is a click on Calculate that
    succeeds, which stores the result computed from the valid subjects. *)
Theorem result_only_replaced_by_calculation (e : Event) (st : State) :
  result (fst (step e st)) = result st
  \/ (e = ClickCalculate
      /\ result (fst (step e st))
         = Some (resultFrom (filter isValidSubject (subjects st)))).
Proof.
  destruct (handle_cases e st)
    as [H|[[value [_ H]]|[[i [u [_ H]]]|[[He [_ H]]|[_ H]]]]]; rewrite H.
  - now left.
  - left. now rewrite onSelect_state.
  - now left.
  - destruct (calculate_state st) as [E|[_ [_ E]]]; rewrite E.
    + now left.
    + right. split; [exact He | reflexivity].
  - now left.
Qed.

(** *** The subject count *)

Lemma reachable_count_shape (st : State) :
  canReach st ->
  (subjectCount st = None /\ subjects st = [])
  \/ (exists n, subjectCount st = Some n /\ In n subjectOptions
                /\ List.length (subjects st) = n).
Proof.
  intros Hreach.
  assert (Hcount : subjectCount st = None
                   \/ exists n, subjectCount st = Some n
                                /\ In n subjectOptions).
  { unfold canReach in Hreach. induction Hreach as [|e st _ IH]; [now left|].
    destruct (handle_cases e st)
      as [H|[[value [Hv H]]|[[i [u [_ H]]]|[[_ [_ H]]|[_ H]]]]];
      unfold step, calculate in H; rewrite H; try exact IH.
    - rewrite onSelect_state. cbn [subjectCount].
      destruct (sameCount _ _); [now left | right; now exists value].
    - destruct (calculate_state st) as [E|[_ [_ E]]];
        unfold calculate, resultFrom in E; rewrite E; exact IH. }
  pose proof (AppFacts.reachable_formInvariant _ _ _ _ _ st Hreach) as Hinv.
  unfold formInvariant in Hinv.
  destruct Hcount as [Hc|[n [Hc Hn]]]; rewrite Hc in Hinv.
  - left. split; [exact Hc | now apply length_zero_iff_nil].
  - right. now exists n.
Qed.

(** The rows are rendered exactly when there are subjects. *)
Lemma reachable_rendersForm (st : State) :
  canReach st -> (rendersForm st = true <-> subjects st <> []).
Proof.
  intros Hreach. unfold rendersForm.
  destruct (reachable_count_shape st Hreach)
    as [[Hc Hs]|[n [Hc [Hn Hlen]]]]; rewrite Hc.
  - rewrite Hs. split; [discriminate | congruence].
  - cbn in Hn.
    destruct Hn as [<-|[<-|[<-|[<-|[<-|[]]]]]];
      (split; [intros _ E; rewrite E in Hlen; discriminate | reflexivity]).
Qed.

(** X5.  In every reachable state the count is [null] with an empty list,
    or one of the five options with that many subjects; the combobox button
    then always has a text, the placeholder or the option's label, and the
    rows are rendered exactly when there are subjects. *)
Theorem count_is_null_or_an_option (st : State) :
  canReach st ->
  ((subjectCount st = None /\ subjects st = []
    /\ buttonLabel st = Some "Select number of subjects...")
   \/ (exists n, subjectCount st = Some n /\ In n subjectOptions
                 /\ List.length (subjects st) = n
                 /\ buttonLabel st = Some (Js.natToString n ++ " Subjects")))
  /\ (rendersForm st = true <-> subjects st <> []).
Proof.
  intros Hreach. split; [|now apply reachable_rendersForm].
  unfold buttonLabel.
  destruct (reachable_count_shape st Hreach)
    as [[Hc Hs]|[n [Hc [Hn Hlen]]]]; rewrite Hc.
  - left. repeat split. exact Hs.
  - right. exists n. repeat split; try assumption.
    cbn in Hn. destruct Hn as [<-|[<-|[<-|[<-|[<-|[]]]]]]; reflexivity.
Qed.

(** X18.  Selecting an option, whichever it is, leaves no entered data
    behind: the list is empty afterwards, if the option was the current
    count, or holds as many blank rows as the option says; the popover is
    closed, and the stored result and the overlay are not touched. *)
Theorem onSelect_discards_entries (value : nat) (st : State) :
  (subjects (onSelect value st)
   = if sameCount (Some value) (subjectCount st) then []
     else map newSubject (seq 0 value))
  /\ Forall (fun s => name s = "" /\ marks s = 0 /\ creditHours s = 1%N)
        (subjects (onSelect value st))
  /\ open (onSelect value st) = false
  /\ result (onSelect value st) = result st
  /\ showModal (onSelect value st) = showModal st.
Proof.
  rewrite onSelect_state. cbn [subjects open result showModal].
  destruct (sameCount _ _); repeat split; try constructor.
  apply Forall_forall. intros s Hs. apply in_map_iff in Hs.
  destruct Hs as [index [<- _]]. repeat split.
Qed.

(** *** The rows of the form *)

Lemma assignField_id (u : FieldUpdate) (s : Subject) :
  field u <> FId -> id (assignField u s) = id s.
Proof. destruct u; cbn; congruence. Qed.

(** An update of another field keeps every id. *)
Lemma updateSubject_ids (i : string) (u : FieldUpdate) (st : State) :
  field u <> FId ->
  map id (subjects (updateSubject i u st)) = map id (subjects st).
Proof.
  intros Hu. unfold updateSubject. cbn [subjects setSubjects].
  rewrite map_map. apply map_ext. intros s.
  destruct (id s =? i)%string; [now apply assignField_id | reflexivity].
Qed.

Lemma rowUpdate_not_id (input : RowInput) : field (rowUpdate input) <> FId.
Proof. destruct input; discriminate. Qed.

Lemma uiReachable_ids (st : State) :
  uiCanReach st ->
  map id (subjects st) = rowIds (List.length (subjects st))
  /\ NoDup (map id (subjects st)).
Proof.
  intros Hreach.
  assert (Hids : map id (subjects st) = rowIds (List.length (subjects st))).
  { unfold uiCanReach in Hreach. induction Hreach as [|e st _ IH]; [reflexivity|].
    destruct (uiHandle_cases e st)
      as [H|[[value [_ H]]|[[k [s [input [_ [_ [_ [_ H]]]]]]]
                            |[[_ [_ H]]|[_ H]]]]];
      unfold uiStep, calculate in H; rewrite H; try exact IH.
    - rewrite onSelect_state. cbn [subjects].
      destruct (sameCount _ _); [reflexivity|].
      rewrite length_map, length_seq, map_map. reflexivity.
    - rewrite updateSubject_ids by apply rowUpdate_not_id.
      replace (List.length (subjects (updateSubject _ _ st)))
        with (List.length (subjects st)); [exact IH|].
      unfold updateSubject. cbn [subjects setSubjects].
      now rewrite length_map.
    - destruct (calculate_state st) as [E|[_ [_ E]]];
        unfold calculate, resultFrom in E; rewrite E; exact IH. }
  split; [exact Hids|]. rewrite Hids.
  pose proof (FormFacts.newSubject_ids_NoDup (List.length (subjects st))) as H.
  now rewrite map_map in H.
Qed.

(** X6.  However the page is used, the ids of the rows are "1" to "n" in
    order, so no two rows share an id and the row at position [k] has the
    id [k + 1]. *)
Theorem row_ids_are_1_to_n (st : State) :
  uiCanReach st ->
  map id (subjects st) = rowIds (List.length (subjects st))
  /\ NoDup (map id (subjects st))
  /\ (forall k s, nth_error (subjects st) k = Some s ->
      id s = Js.natToString (k + 1)).
Proof.
  intros Hreach. destruct (uiReachable_ids st Hreach) as [Hids Hnd].
  repeat split; try assumption.
  intros k s Hk.
  assert (H : nth_error (map id (subjects st)) k = Some (id s))
    by (now rewrite nth_error_map, Hk).
  rewrite Hids in H. unfold rowIds in H.
  rewrite nth_error_map, nth_error_seq in H.
  destruct (k <? _)%nat; [|discriminate]. cbn in H. now injection H.
Qed.

(** X7.  A change in the row rendered for [subjects[k]] rewrites that row
    only: the list after the change is the list before it with the entry at
    position [k] replaced by its updated copy. *)
Theorem onRowChange_rewrites_row_k (st : State) (k : nat) (s : Subject)
    (input : RowInput) :
  uiCanReach st ->
  nth_error (subjects st) k = Some s ->
  offered input = true ->
  subjects (onRowChange k input st)
  = (firstn k (subjects st)
     ++ assignField (rowUpdate input) s :: skipn (S k) (subjects st))%list.
Proof.
  intros Hreach Hk Ho.
  destruct (uiReachable_ids st Hreach) as [_ Hnd].
  pose proof (reachable_rendersForm st (uiReachable_reachable st Hreach))
    as Hr.
  assert (Hform : rendersForm st = true).
  { apply Hr. intros E. rewrite E in Hk. now destruct k. }
  unfold onRowChange. rewrite Hform, Ho, Hk. cbn [andb].
  apply nth_error_ext. intros j.
  rewrite FormFacts.updateSubject_nth.
  rewrite <- (firstn_skipn_middle k (subjects st) Hk) at 1.
  assert (Hlen : List.length (firstn k (subjects st)) = k).
  { apply firstn_length_le. apply Nat.lt_le_incl, nth_error_Some. congruence. }
  destruct (Nat.lt_trichotomy j k) as [Hlt|[->|Hgt]].
  - rewrite !nth_error_app1 by lia.
    destruct (nth_error (firstn k (subjects st)) j) as [s'|] eqn:Hj;
      [|reflexivity]. cbn.
    destruct (String.eqb_spec (id s') (id s)) as [E|_]; [|reflexivity].
    exfalso. rewrite nth_error_firstn in Hj.
    apply Nat.ltb_lt in Hlt. rewrite Hlt in Hj.
    pose proof (FormFacts.unique_id_position (subjects st) j k s' s Hnd Hj Hk E).
    apply Nat.ltb_lt in Hlt. lia.
  - rewrite !nth_error_app2 by lia. rewrite Hlen, Nat.sub_diag. cbn.
    now rewrite String.eqb_refl.
  - rewrite !nth_error_app2 by lia. rewrite Hlen.
    destruct (j - k)%nat as [|d] eqn:Hd; [lia|]. cbn [nth_error].
    destruct (nth_error (skipn (S k) (subjects st)) d) as [s'|] eqn:Hj;
      [|reflexivity]. cbn.
    destruct (String.eqb_spec (id s') (id s)) as [E|_]; [|reflexivity].
    exfalso. rewrite nth_error_skipn in Hj.
    pose proof (FormFacts.unique_id_position (subjects st) _ k s' s Hnd Hj Hk E).
    lia.
Qed.

(** *** What reaches [calculateGPA] *)

Lemma offered_creditHours (input : RowInput) (s : Subject) :
  offered input = true ->
  In (creditHours s) creditHourOptions ->
  In (creditHours (assignField (rowUpdate input) s)) creditHourOptions.
Proof.
  destruct input as [text|n|hours]; cbn [rowUpdate assignField creditHours];
    try (intros _ H; exact H).
  intros Ho _. cbn [offered] in Ho.
  apply existsb_exists in Ho. destruct Ho as [x [Hx E]].
  apply N.eqb_eq in E. now subst.
Qed.

(** The credit hours of every row are one of the four options. *)
Lemma creditHours_are_options (st : State) :
  uiCanReach st ->
  Forall (fun s => In (creditHours s) creditHourOptions) (subjects st).
Proof.
  unfold uiCanReach. induction 1 as [|e st _ IH]; [constructor|].
  destruct (uiHandle_cases e st)
    as [H|[[value [_ H]]|[[k [s [input [_ [Ho [_ [_ H]]]]]]]
                          |[[_ [_ H]]|[_ H]]]]];
    unfold uiStep, calculate in H; rewrite H; try exact IH.
  - rewrite onSelect_state. cbn [subjects].
    destruct (sameCount _ _); [constructor|].
    apply Forall_forall. intros x Hx. apply in_map_iff in Hx.
    destruct Hx as [index [<- _]]. cbn. now left.
  - unfold updateSubject. cbn [subjects setSubjects].
    apply Forall_forall. intros x Hx. apply in_map_iff in Hx.
    destruct Hx as [s' [<- Hs']].
    rewrite Forall_forall in IH. specialize (IH s' Hs').
    destruct (id s' =? id s)%string; [|exact IH].
    now apply offered_creditHours.
  - destruct (calculate_state st) as [E|[_ [_ E]]];
      unfold calculate, resultFrom in E; rewrite E; exact IH.
Qed.

Lemma totalCreditHours_positive (l : list Subject) :
  l <> [] ->
  Forall (fun s => In (creditHours s) creditHourOptions) l ->
  (N.of_nat (List.length l) <= GradeCalculations.totalCreditHours l)%N.
Proof.
  intros _. induction 1 as [|s rest Hs _ IH]; [cbn; lia|].
  cbn [List.length GradeCalculations.totalCreditHours].
  assert (1 <= creditHours s)%N.
  { cbn in Hs. destruct Hs as [<-|[<-|[<-|[<-|[]]]]]; lia. }
  lia.
Qed.

(** X8.  However the page is used, when a calculation succeeds the list
    handed to [calculateGPA] is the whole subject list; it is not empty,
    each of its credit hours is 1, 2, 3 or 4, so that their sum is at least
    the number of subjects, and each of its marks lies in [0, 100]. *)
Theorem calculateGPA_receives_complete_form (st : State) :
  uiCanReach st ->
  outcome (snd (calculate st)) = Success ->
  let valid := filter isValidSubject (subjects st) in
  result (fst (calculate st)) = Some (resultFrom valid)
  /\ valid = subjects st
  /\ valid <> []
  /\ Forall (fun s => In (creditHours s) creditHourOptions
                      /\ 0 <= marks s <= 100) valid
  /\ (0 < GradeCalculations.totalCreditHours valid)%N
  /\ (N.of_nat (List.length valid)
      <= GradeCalculations.totalCreditHours valid)%N.
Proof.
  intros Hreach Hs valid.
  pose proof (AppFacts.reachable_formInvariant _ _ _ _ _ st
                (uiReachable_reachable st Hreach)) as Hinv.
  pose proof (creditHours_are_options st Hreach) as Hch.
  destruct (CalculationFacts.calculateResult_cases calculateGPA
              getGPAPercentage getLetterGrade getRemarks st)
    as [[_ Hc]|[[_ [_ Hc]]|[Hv [Hn Hc]]]];
    unfold calculate in Hs |- *; rewrite Hc in Hs |- *;
    try discriminate Hs.
  fold valid in Hv, Hn.
  assert (Hall : valid = subjects st).
  { apply CalculationFacts.filter_same_length.
    unfold formInvariant in Hinv. rewrite Hn in Hinv. now symmetry. }
  assert (Hboth : Forall (fun s => In (creditHours s) creditHourOptions
                                   /\ 0 <= marks s <= 100) valid).
  { apply Forall_forall. intros s Hin. split.
    - rewrite Hall in Hin. rewrite Forall_forall in Hch. now apply Hch.
    - apply filter_In in Hin. destruct Hin as [_ Hin].
      unfold isValidSubject in Hin.
      rewrite !andb_true_iff, !Qle_bool_iff in Hin. tauto. }
  assert (Hsum : (N.of_nat (List.length valid)
                  <= GradeCalculations.totalCreditHours valid)%N).
  { apply totalCreditHours_positive; [exact Hv|].
    rewrite Hall. exact Hch. }
  repeat split; try assumption.
  destruct valid; [contradiction | cbn [List.length] in Hsum; lia].
Qed.

(** *** Calculating *)

Lemma newSubject_invalid (l : list nat) :
  filter isValidSubject (map newSubject l) = [].
Proof. induction l as [|n l IH]; [reflexivity | exact IH]. Qed.

(** On the form a selection leaves behind, [calculateResult] reports
    "Invalid Input": the fresh rows have no names. *)
Lemma calculate_on_fresh_form_is_empty_input (value : nat) (st : State) :
  calculate (onSelect value st)
  = (onSelect value st, [EToast invalidInputToast]).
Proof.
  unfold calculate, calculateResult. rewrite onSelect_state. cbn [subjects].
  destruct (sameCount _ _); [reflexivity|].
  now rewrite newSubject_invalid.
Qed.

(** X9.  Right after an option has been selected, a click on Calculate
    never succeeds and changes nothing.  If the selection chose a new
    count, the button is there and the click reports "Invalid Input"; if it
    deselected the current count, no button is rendered and nothing is
    reported. *)
Theorem click_calculate_after_selection (value : nat) (st : State) :
  In value subjectOptions ->
  rendersForm (onSelect value st)
  = negb (sameCount (Some value) (subjectCount st))
  /\ uiStep PressCalculate (onSelect value st)
     = (onSelect value st,
        if sameCount (Some value) (subjectCount st) then []
        else [EToast invalidInputToast]).
Proof.
  intros Hvalue.
  assert (Hform : rendersForm (onSelect value st)
                  = negb (sameCount (Some value) (subjectCount st))).
  { rewrite onSelect_state. unfold rendersForm. cbn [subjectCount].
    destruct (sameCount _ _); [reflexivity|]. cbn in Hvalue.
    destruct Hvalue as [<-|[<-|[<-|[<-|[<-|[]]]]]]; reflexivity. }
  split; [exact Hform|].
  unfold uiStep. cbn [uiHandle]. rewrite Hform.
  destruct (sameCount (Some value) (subjectCount st)) eqn:E; cbn [negb].
  - reflexivity.
  - pose proof (calculate_on_fresh_form_is_empty_input value st) as H.
    unfold calculate in H. exact H.
Qed.

Lemma filter_all_iff {A : Type} (f : A -> bool) (l : list A) :
  List.length (filter f l) = List.length l <-> forallb f l = true.
Proof.
  induction l as [|a l IH]; cbn; [tauto|].
  destruct (f a); cbn.
  - rewrite <- IH. split; [now intros H; injection H | now intros ->].
  - pose proof (filter_length_le f l). split; [lia | discriminate].
Qed.

Lemma filter_nil_iff {A : Type} (f : A -> bool) (l : list A) :
  filter f l = [] <-> existsb f l = false.
Proof.
  induction l as [|a l IH]; cbn; [tauto|].
  destruct (f a); cbn; [split; discriminate | exact IH].
Qed.

(** X10.  In every reachable state the three outcomes of a calculation
    are: "Invalid Input" when no row is valid, "Incomplete Data" when some
    row is valid and some row is not, success when there are rows and all
    of them are valid. *)
Theorem outcome_by_rows (st : State) :
  canReach st ->
  (outcome (snd (calculate st)) = Failure EmptyInput
   <-> existsb isValidSubject (subjects st) = false)
  /\ (outcome (snd (calculate st)) = Failure IncompleteData
      <-> existsb isValidSubject (subjects st) = true
          /\ forallb isValidSubject (subjects st) = false)
  /\ (outcome (snd (calculate st)) = Success
      <-> subjects st <> []
          /\ forallb isValidSubject (subjects st) = true).
Proof.
  intros Hreach.
  pose proof (AppFacts.reachable_formInvariant _ _ _ _ _ st Hreach) as Hinv.
  pose proof (reachable_count_shape st Hreach) as Hcount.
  pose proof (filter_nil_iff isValidSubject (subjects st)) as Hnil.
  pose proof (filter_all_iff isValidSubject (subjects st)) as Hfull.
  unfold formInvariant in Hinv.
  destruct (CalculationFacts.calculateResult_cases calculateGPA
              getGPAPercentage getLetterGrade getRemarks st)
    as [[Hv Hc]|[[Hv [Hn Hc]]|[Hv [Hn Hc]]]];
    unfold calculate; rewrite Hc; cbn [snd outcome reportedError];
    cbn.
  - apply Hnil in Hv. rewrite Hv.
    repeat split; try discriminate; try tauto.
    + intros [H _]. discriminate.
    + intros [Hne Hall]. destruct (subjects st); [contradiction|].
      cbn in Hv, Hall.
      destruct (isValidSubject s); discriminate.
  - assert (He : existsb isValidSubject (subjects st) = true).
    { apply not_false_iff_true. intros E. apply Hnil in E. contradiction. }
    assert (Hf : forallb isValidSubject (subjects st) = false).
    { apply not_true_iff_false. intros E.
      apply Hfull in E. apply Hn.
      destruct Hcount as [[Hnone Hs]|[n [Hsome [_ Hlen]]]].
      - rewrite Hs in Hv. now contradiction Hv.
      - rewrite Hsome. f_equal. congruence. }
    rewrite He, Hf.
    repeat split; try discriminate; try tauto.
    intros [_ H]. discriminate.
  - assert (He : existsb isValidSubject (subjects st) = true).
    { apply not_false_iff_true. intros E. apply Hnil in E. contradiction. }
    assert (Hf : forallb isValidSubject (subjects st) = true).
    { apply Hfull. rewrite Hn in Hinv. now symmetry. }
    rewrite He, Hf.
    repeat split; try discriminate; try tauto.
    + intros [_ H]. discriminate.
    + intros E. rewrite E in He. discriminate.
Qed.

(** X11.  Clicking Calculate twice in a row, with nothing changed in
    between, gives the same state and the same report as clicking it
    once. *)
Theorem calculate_twice (st : State) :
  calculate (fst (calculate st)) = calculate st.
Proof.
  destruct (CalculationFacts.calculateResult_cases calculateGPA
              getGPAPercentage getLetterGrade getRemarks st)
    as [[Hv Hc]|[[Hv [Hn Hc]]|[Hv [Hn Hc]]]];
    unfold calculate; rewrite Hc; cbn [fst]; try exact Hc.
  unfold calculateResult.
  cbn [subjects subjectCount setShowModal setResult].
  destruct (filter isValidSubject (subjects st)) as [|s rest] eqn:E;
    [contradiction|].
  cbn [List.length Nat.eqb].
  apply CalculationFacts.differsFromCount_false in Hn.
  cbn [List.length] in Hn. rewrite Hn.
  reflexivity.
Qed.

(** X12.  In every reachable state with the overlay open, a click on the
    export button never falls through the [if (!result) return] guard: it
    ends either with the document saved, "Export Complete" and the overlay
    closed, or with "Export Error" and the state as it was. *)
Theorem export_click_always_reports (env : Environment) (st : State) :
  canReach st ->
  showModal st = true ->
  exists r, result st = Some r
    /\ let calls := pdfCalls numberToString env r (subjects st) in
       let out := ResultModal.modalClick numberToString env
                    ResultModal.ExportButton st in
       (out = (setShowModal false st,
               [EPdf calls; EToast exportCompleteToast])
        /\ jsPdfThrows env calls = false)
       \/ (exists k, jsPdfThrowsAt env = Some k
             /\ jsPdfThrows env calls = true
             /\ out = (st, [ EPdf (firstn k calls);
                             EConsoleError "Error generating PDF:";
                             EToast exportErrorToast ])).
Proof.
  intros Hreach Hopen.
  destruct (overlay_result_invariant st Hreach Hopen) as [r Hr].
  exists r. split; [exact Hr|]. intros calls out. subst out.
  unfold ResultModal.modalClick. rewrite Hopen.
  rewrite OverlayFacts.click_table.
  cbn [ResultModal.callAll ResultModal.call].
  unfold exportToPDF, jsPdfThrows. rewrite Hr. fold calls.
  destruct (jsPdfThrowsAt env) as [k|].
  - destruct (k <? List.length calls)%nat eqn:Hk.
    + right. exists k. repeat split.
    + left. split; reflexivity.
  - left. split; reflexivity.
Qed.

End App.

(** *** How edits compose *)

Lemma updateSubject_twice (i j : string) (u v : FieldUpdate) (st : State) :
  updateSubject i u (updateSubject j v st)
  = setSubjects
      (map (fun s =>
              let s' := if (id s =? j)%string then assignField v s else s in
              if (id s' =? i)%string then assignField u s' else s')
           (subjects st))
      st.
Proof.
  unfold updateSubject. cbn [subjects setSubjects].
  rewrite map_map. now destruct st.
Qed.

(** Two updates in a row, each made on the state the one before left. *)
Lemma updateSubject_successive (i j : string) (u v : FieldUpdate)
    (st : State) :
  field u <> FId -> field v <> FId ->
  (field u = field v ->
   updateSubject i u (updateSubject i v st) = updateSubject i u st)
  /\ (i <> j \/ field u <> field v ->
      updateSubject i u (updateSubject j v st)
      = updateSubject j v (updateSubject i u st)).
Proof.
  intros Hu Hv. split.
  - intros Hsame. rewrite updateSubject_twice. unfold updateSubject.
    f_equal. apply map_ext. intros s. cbv zeta.
    destruct (id s =? i)%string eqn:E; [|now rewrite E].
    rewrite assignField_id, E by exact Hv.
    destruct u, v, s; cbn in *; congruence.
  - intros Hdiff. rewrite !updateSubject_twice.
    f_equal. apply map_ext. intros s. cbv zeta.
    destruct (id s =? i)%string eqn:Ei, (id s =? j)%string eqn:Ej;
      rewrite ?assignField_id, ?Ei, ?Ej by assumption; try reflexivity.
    apply String.eqb_eq in Ei, Ej.
    destruct Hdiff as [Hij|Hf]; [congruence|].
    destruct u, v, s; cbn in *; congruence.
Qed.

Section Rows.

Variable calculateGPA : list Subject -> number.
Variable getGPAPercentage : number -> number.
Variable getLetterGrade : number -> string.
Variable getRemarks : number -> string.
Variable numberToString : number -> string.

Let uiCanReach : State -> Prop :=
  uiReachable calculateGPA getGPAPercentage getLetterGrade getRemarks
    numberToString.

(** A change event, read through the id of the row it comes from. *)
Lemma onRowChange_by_id (st : State) (k : nat) (a : RowInput) :
  uiCanReach st ->
  onRowChange k a st
  = match nth_error (map id (subjects st)) k with
    | Some i => if offered a then updateSubject i (rowUpdate a) st else st
    | None => st
    end.
Proof.
  intros Hreach. unfold onRowChange. rewrite nth_error_map.
  destruct (nth_error (subjects st) k) as [s|] eqn:Hk; cbn [option_map].
  - assert (Hform : rendersForm st = true).
    { apply (reachable_rendersForm calculateGPA getGPAPercentage
               getLetterGrade getRemarks numberToString).
      - now apply uiReachable_reachable.
      - intros E. rewrite E in Hk. now destruct k. }
    rewrite Hform. reflexivity.
  - now destruct (rendersForm st && offered a).
Qed.

Lemma onRowChange_ids (st : State) (k : nat) (a : RowInput) :
  map id (subjects (onRowChange k a st)) = map id (subjects st).
Proof.
  unfold onRowChange. destruct (rendersForm st && offered a); [|reflexivity].
  destruct (nth_error (subjects st) k) as [s|]; [|reflexivity].
  apply updateSubject_ids, rowUpdate_not_id.
Qed.

Lemma onRowChange_reachable (st : State) (k : nat) (a : RowInput) :
  uiCanReach st -> uiCanReach (onRowChange k a st).
Proof.
  intros Hreach.
  exact (uiReachable_step calculateGPA getGPAPercentage getLetterGrade
           getRemarks numberToString (ChangeRow k a) st Hreach).
Qed.

(** X13.  Change events of the row inputs, each handled after the render
    that followed the one before, compose as one expects: of two changes of
    the same input of the same row the later one wins, and two changes of
    different rows, or of different inputs, lead to the same state in
    either order. *)
Theorem row_changes_compose (st : State) (k j : nat) (a b : RowInput) :
  uiCanReach st ->
  (field (rowUpdate a) = field (rowUpdate b) -> offered a = true ->
   onRowChange k a (onRowChange k b st) = onRowChange k a st)
  /\ (k <> j \/ field (rowUpdate a) <> field (rowUpdate b) ->
      onRowChange k a (onRowChange j b st)
      = onRowChange j b (onRowChange k a st)).
Proof.
  intros Hreach.
  pose proof (uiReachable_ids calculateGPA getGPAPercentage getLetterGrade
                getRemarks numberToString st Hreach) as [_ Hnd].
  pose proof (rowUpdate_not_id a) as Ha.
  pose proof (rowUpdate_not_id b) as Hb.
  split.
  - intros Hsame Hoa.
    rewrite (onRowChange_by_id (onRowChange k b st) k a)
      by now apply onRowChange_reachable.
    rewrite onRowChange_ids.
    rewrite !(onRowChange_by_id st) by exact Hreach.
    destruct (nth_error (map id (subjects st)) k) as [i|]; [|reflexivity].
    rewrite Hoa. destruct (offered b); [|reflexivity].
    now apply updateSubject_successive.
  - intros Hdiff.
    rewrite (onRowChange_by_id (onRowChange j b st) k a)
      by now apply onRowChange_reachable.
    rewrite (onRowChange_by_id (onRowChange k a st) j b)
      by now apply onRowChange_reachable.
    rewrite !onRowChange_ids.
    rewrite !(onRowChange_by_id st) by exact Hreach.
    destruct (nth_error (map id (subjects st)) k) as [i|] eqn:Hk;
      destruct (nth_error (map id (subjects st)) j) as [i'|] eqn:Hj;
      destruct (offered a), (offered b); try reflexivity.
    apply updateSubject_successive; try assumption.
    destruct Hdiff as [Hkj|Hf]; [left | now right].
    intros ->. apply Hkj.
    rewrite NoDup_nth_error in Hnd. apply Hnd.
    + apply nth_error_Some. congruence.
    + congruence.
Qed.

End Rows.

(** *** Worked sessions *)

Lemma filled_uiReachable :
  uiReachable Sample.calculateGPA Sample.getGPAPercentage
    Sample.getLetterGrade Sample.getRemarks Sample.numberToString
    Sample.filledState.
Proof.
  exact (uiRun_reachable Sample.calculateGPA Sample.getGPAPercentage
           Sample.getLetterGrade Sample.getRemarks Sample.numberToString
           fillFourRows initialState
           (uiReachable_initial _ _ _ _ _)).
Qed.

Lemma partlyFilled_uiReachable :
  uiReachable Sample.calculateGPA Sample.getGPAPercentage
    Sample.getLetterGrade Sample.getRemarks Sample.numberToString
    Sample.partlyFilledState.
Proof.
  exact (uiRun_reachable Sample.calculateGPA Sample.getGPAPercentage
           Sample.getLetterGrade Sample.getRemarks Sample.numberToString
           (removelast fillFourRows) initialState
           (uiReachable_initial _ _ _ _ _)).
Qed.

Lemma resultShown_uiReachable :
  uiReachable Sample.calculateGPA Sample.getGPAPercentage
    Sample.getLetterGrade Sample.getRemarks Sample.numberToString
    Sample.resultShownState.
Proof.
  exact (uiReachable_step Sample.calculateGPA Sample.getGPAPercentage
           Sample.getLetterGrade Sample.getRemarks Sample.numberToString
           PressCalculate Sample.filledState filled_uiReachable).
Qed.

Lemma open_overlay_has_result_witness :
  showModal Sample.resultShownState = true
  /\ exists r, result Sample.resultShownState = Some r
               /\ ResultModal.shownResult Sample.resultShownState = r.
Proof.
  split; [reflexivity|].
  apply (open_overlay_has_result Sample.calculateGPA Sample.getGPAPercentage
           Sample.getLetterGrade Sample.getRemarks Sample.numberToString).
  - apply uiReachable_reachable. exact resultShown_uiReachable.
  - reflexivity.
Defined.

Lemma count_is_null_or_an_option_witness :
  buttonLabel Sample.filledState = Some "4 Subjects"
  /\ (rendersForm Sample.filledState = true
      <-> subjects Sample.filledState <> []).
Proof.
  destruct (count_is_null_or_an_option Sample.calculateGPA
              Sample.getGPAPercentage Sample.getLetterGrade Sample.getRemarks
              Sample.numberToString Sample.filledState
              (uiReachable_reachable _ _ _ _ _ _ filled_uiReachable))
    as [_ H].
  split; [reflexivity | exact H].
Defined.

Lemma row_ids_are_1_to_n_witness :
  map id Sample.filled = ["1"; "2"; "3"; "4"]
  /\ NoDup (map id Sample.filled).
Proof.
  destruct (row_ids_are_1_to_n Sample.calculateGPA Sample.getGPAPercentage
              Sample.getLetterGrade Sample.getRemarks Sample.numberToString
              Sample.filledState filled_uiReachable) as [Hids [Hnd _]].
  split; [exact Hids | exact Hnd].
Defined.

Lemma onRowChange_rewrites_row_k_witness :
  nth_error (subjects Sample.filledState) 1
  = Some (mkSubject "2" "Physics" 82 3)
  /\ subjects (onRowChange 1 (MarksInput 75) Sample.filledState)
     = [ mkSubject "1" "Calculus" 100 3;
         mkSubject "2" "Physics" 75 3;
         mkSubject "3" "English" 90 2;
         mkSubject "4" "Drawing" 0 1 ].
Proof.
  split; [reflexivity|].
  exact (onRowChange_rewrites_row_k Sample.calculateGPA
           Sample.getGPAPercentage Sample.getLetterGrade Sample.getRemarks
           Sample.numberToString Sample.filledState 1
           (mkSubject "2" "Physics" 82 3) (MarksInput 75)
           filled_uiReachable eq_refl eq_refl).
Defined.

Lemma calculateGPA_receives_complete_form_witness :
  outcome (snd (Sample.calculate Sample.filledState)) = Success
  /\ filter isValidSubject Sample.filled = Sample.filled
  /\ (0 < GradeCalculations.totalCreditHours
            (filter isValidSubject Sample.filled))%N.
Proof.
  assert (Hs : outcome (snd (Sample.calculate Sample.filledState)) = Success)
    by reflexivity.
  pose proof (calculateGPA_receives_complete_form Sample.calculateGPA
                Sample.getGPAPercentage Sample.getLetterGrade
                Sample.getRemarks Sample.numberToString Sample.filledState
                filled_uiReachable Hs) as H.
  cbv zeta in H. destruct H as [_ [Hall [_ [_ [Hpos _]]]]].
  split; [exact Hs | split; [exact Hall | exact Hpos]].
Defined.

Lemma outcome_by_rows_witness :
  existsb isValidSubject (subjects Sample.partlyFilledState) = true
  /\ forallb isValidSubject (subjects Sample.partlyFilledState) = false
  /\ outcome (snd (Sample.calculate Sample.partlyFilledState))
     = Failure IncompleteData.
Proof.
  destruct (outcome_by_rows Sample.calculateGPA Sample.getGPAPercentage
              Sample.getLetterGrade Sample.getRemarks Sample.numberToString
              Sample.partlyFilledState
              (uiReachable_reachable _ _ _ _ _ _ partlyFilled_uiReachable))
    as [_ [H _]].
  split; [reflexivity | split; [reflexivity|]].
  apply H. split; reflexivity.
Defined.

Lemma export_click_always_reports_witness :
  showModal Sample.resultShownState = true
  /\ exists r, result Sample.resultShownState = Some r
       /\ ((ResultModal.modalClick Sample.numberToString Sample.brokenPdf
              ResultModal.ExportButton Sample.resultShownState
            = (setShowModal false Sample.resultShownState,
               [ EPdf (pdfCalls Sample.numberToString Sample.brokenPdf r
                         (subjects Sample.resultShownState));
                 EToast exportCompleteToast ])
            /\ jsPdfThrows Sample.brokenPdf
                 (pdfCalls Sample.numberToString Sample.brokenPdf r
                    (subjects Sample.resultShownState)) = false)
           \/ (exists k, jsPdfThrowsAt Sample.brokenPdf = Some k
                 /\ jsPdfThrows Sample.brokenPdf
                      (pdfCalls Sample.numberToString Sample.brokenPdf r
                         (subjects Sample.resultShownState)) = true
                 /\ ResultModal.modalClick Sample.numberToString
                      Sample.brokenPdf ResultModal.ExportButton
                      Sample.resultShownState
                    = (Sample.resultShownState,
                       [ EPdf (firstn k
                                 (pdfCalls Sample.numberToString
                                    Sample.brokenPdf r
                                    (subjects Sample.resultShownState)));
                         EConsoleError "Error generating PDF:";
                         EToast exportErrorToast ]))).
Proof.
  split; [reflexivity|].
  exact (export_click_always_reports Sample.calculateGPA
           Sample.getGPAPercentage Sample.getLetterGrade Sample.getRemarks
           Sample.numberToString Sample.brokenPdf Sample.resultShownState
           (uiReachable_reachable _ _ _ _ _ _ resultShown_uiReachable)
           eq_refl).
Defined.

Lemma click_calculate_after_selection_witness :
  In 5%nat subjectOptions
  /\ uiHandle Sample.calculateGPA Sample.getGPAPercentage
       Sample.getLetterGrade Sample.getRemarks Sample.numberToString
       PressCalculate (onSelect 5 Sample.filledState)
     = (onSelect 5 Sample.filledState, [EToast invalidInputToast])
  /\ uiHandle Sample.calculateGPA Sample.getGPAPercentage
       Sample.getLetterGrade Sample.getRemarks Sample.numberToString
       PressCalculate (onSelect 4 Sample.filledState)
     = (onSelect 4 Sample.filledState, []).
Proof.
  assert (H5 : In 5%nat subjectOptions) by (right; left; reflexivity).
  assert (H4 : In 4%nat subjectOptions) by (left; reflexivity).
  split; [exact H5|]. split.
  - exact (proj2 (click_calculate_after_selection Sample.calculateGPA
                    Sample.getGPAPercentage Sample.getLetterGrade
                    Sample.getRemarks Sample.numberToString 5
                    Sample.filledState H5)).
  - exact (proj2 (click_calculate_after_selection Sample.calculateGPA
                    Sample.getGPAPercentage Sample.getLetterGrade
                    Sample.getRemarks Sample.numberToString 4
                    Sample.filledState H4)).
Defined.

Lemma row_changes_compose_witness :
  onRowChange 1 (MarksInput 75)
    (onRowChange 1 (MarksInput 60) Sample.filledState)
  = onRowChange 1 (MarksInput 75) Sample.filledState
  /\ onRowChange 1 (MarksInput 75)
       (onRowChange 2 (NameInput "History") Sample.filledState)
     = onRowChange 2 (NameInput "History")
         (onRowChange 1 (MarksInput 75) Sample.filledState).
Proof.
  split.
  - apply (row_changes_compose Sample.calculateGPA Sample.getGPAPercentage
             Sample.getLetterGrade Sample.getRemarks Sample.numberToString
             Sample.filledState 1 1 (MarksInput 75) (MarksInput 60)
             filled_uiReachable); reflexivity.
  - apply (row_changes_compose Sample.calculateGPA Sample.getGPAPercentage
             Sample.getLetterGrade Sample.getRemarks Sample.numberToString
             Sample.filledState 1 2 (MarksInput 75) (NameInput "History")
             filled_uiReachable).
    left. discriminate.
Defined.

End UiFacts.

(** ** Properties of the exported document *)

Module PdfFacts.
Import GPACalculator Pdf.

Section Document.

Variable numberToString : number -> string.

(** The document is the header, the loop's calls and the footer's. *)
Lemma pdfCalls_parts (env : Environment) (r : Result) (l : list Subject) :
  pdfCalls numberToString env r l
  = (pdfHeader numberToString r
     ++ fst (subjectCalls numberToString 0 120 l)
     ++ (if (250 <? snd (subjectCalls numberToString 0 120 l))%nat
         then [AddPage] else [])
     ++ (let y := if (250 <? snd (subjectCalls numberToString 0 120 l))%nat
                  then 20%nat
                  else snd (subjectCalls numberToString 0 120 l) in
         [ SetFontSize 8;
           SetTextColor 151 151 151;
           Text ("Generated on: " ++ localeDateString env)%string
                20 (y + 20);
           Text "Prepared by students of Batch 2024 – AI Section A & B"
                20 (y + 30) ])
     ++ [Save (fileName env)])%list.
Proof.
  unfold pdfCalls, indexed. rewrite ExportFacts.fold_left_subjectStep.
  unfold pdfFooter, fileName.
  destruct (250 <? _)%nat; cbn [app]; rewrite <- !app_assoc; reflexivity.
Qed.

(** A loop that stays on its page: no page break, one line every 10 mm. *)
Lemma subjectCalls_fits (l : list Subject) (index y : nat) :
  (y + 10 * List.length l <= 280)%nat ->
  snd (subjectCalls numberToString index y l) = (y + 10 * List.length l)%nat
  /\ filter isAddPage (fst (subjectCalls numberToString index y l)) = []
  /\ filter isSave (fst (subjectCalls numberToString index y l)) = []
  /\ List.length (fst (subjectCalls numberToString index y l))
     = List.length l
  /\ forall k s, nth_error l k = Some s ->
       nth_error (fst (subjectCalls numberToString index y l)) k
       = Some (Text (subjectLine numberToString (index + k) s) 30
                 (y + 10 * k)).
Proof.
  revert index y. induction l as [|s rest IH]; intros index y Hfit.
  - cbn. repeat split; try lia. intros k s Hk. now destruct k.
  - cbn [List.length] in Hfit. cbn [subjectCalls].
    destruct (Nat.ltb_spec 270 y) as [Hnew|_]; [lia|].
    destruct (IH (S index) (y + 10)%nat) as [Hy [Hp [Hs [Hlen Hnth]]]];
      [lia|].
    destruct (subjectCalls numberToString (S index) (y + 10) rest)
      as [calls yEnd].
    cbn [fst snd app filter isAddPage isSave List.length] in *.
    repeat split; try assumption; try lia.
    intros k s' Hk. destruct k as [|k]; cbn [nth_error] in *.
    + injection Hk as <-. now rewrite Nat.add_0_r, Nat.mul_0_r, Nat.add_0_r.
    + rewrite (Hnth k s' Hk).
      replace (index + S k)%nat with (S index + k)%nat by lia.
      replace (y + 10 * S k)%nat with (y + 10 + 10 * k)%nat by lia.
      reflexivity.
Qed.

(** A loop with a line below 270 mm breaks the page. *)
Lemma subjectCalls_overflows (l : list Subject) (index y : nat) :
  l <> [] -> (280 < y + 10 * List.length l)%nat ->
  In AddPage (fst (subjectCalls numberToString index y l)).
Proof.
  revert index y. induction l as [|s rest IH]; intros index y Hne Hover;
    [contradiction|].
  cbn [subjectCalls].
  destruct (Nat.ltb_spec 270 y) as [Hnew|Hsame].
  - destruct (subjectCalls numberToString (S index) _ rest). now left.
  - cbn [List.length] in Hover.
    assert (Hrest : rest <> []) by (intros ->; cbn in Hover; lia).
    specialize (IH (S index) (y + 10)%nat Hrest ltac:(lia)).
    destruct (subjectCalls numberToString (S index) (y + 10) rest).
    cbn [fst app] in *. now right.
Qed.

Lemma In_isAddPage (calls : list PdfOp) :
  In AddPage calls <-> filter isAddPage calls <> [].
Proof.
  split.
  - intros H E. assert (In AddPage (filter isAddPage calls))
      by (apply filter_In; now split).
    now rewrite E in *.
  - intros H. destruct (filter isAddPage calls) as [|c rest] eqn:E;
      [contradiction|].
    assert (Hc : In c (filter isAddPage calls)) by (rewrite E; now left).
    apply filter_In in Hc. destruct Hc as [Hc Hp]. now destruct c.
Qed.

(** Thirteen subjects or fewer fit on one page. *)
Lemma pdfCalls_short_one_page (env : Environment) (r : Result)
    (l : list Subject) :
  (List.length l <= 13)%nat ->
  filter isAddPage (pdfCalls numberToString env r l) = [].
Proof.
  intros Hshort. rewrite pdfCalls_parts.
  destruct (subjectCalls_fits l 0 120) as [Hy [Hp _]]; [lia|].
  rewrite Hy, !filter_app, Hp.
  destruct (Nat.ltb_spec 250 (120 + 10 * List.length l)) as [H|_]; [lia|].
  reflexivity.
Qed.

(** X14.  The document has a second page exactly when there are fourteen
    subjects or more.  With at most thirteen there is no page break, the
    line of the subject at position [k] is written at x = 30 mm and
    y = 120 + 10 k mm, and the "Generated on" line at y = 140 + 10 n mm
    for [n] subjects. *)
Theorem pdf_page_break_from_14_subjects (env : Environment) (r : Result)
    (l : list Subject) :
  let calls := pdfCalls numberToString env r l in
  let n := List.length l in
  (In AddPage calls <-> (14 <= n)%nat)
  /\ ((n <= 13)%nat ->
      pageCount calls = 1%nat
      /\ (forall k s, nth_error l k = Some s ->
          nth_error calls (17 + k)
          = Some (Text (subjectLine numberToString k s) 30 (120 + 10 * k)))
      /\ nth_error calls (17 + n + 2)
         = Some (Text ("Generated on: " ++ localeDateString env) 20
                   (140 + 10 * n))
      /\ List.length calls = (17 + n + 5)%nat).
Proof.
  intros calls n. subst calls. rewrite pdfCalls_parts.
  assert (Hheader : filter isAddPage (pdfHeader numberToString r) = [])
    by reflexivity.
  assert (Hhlen : List.length (pdfHeader numberToString r) = 17%nat)
    by reflexivity.
  destruct (Nat.le_gt_cases (120 + 10 * n) 280) as [Hfit|Hover].
  - destruct (subjectCalls_fits l 0 120 Hfit) as [Hy [Hp [_ [Hlen Hnth]]]].
    fold n in Hy, Hlen. rewrite Hy.
    destruct (Nat.ltb_spec 250 (120 + 10 * n)) as [Hfoot|Hfoot].
    + split.
      * split; [lia|]. intros _. apply in_or_app. right.
        apply in_or_app. right. now left.
      * lia.
    + split.
      * split; [|lia]. intros H. apply In_isAddPage in H.
        rewrite !filter_app, Hheader, Hp in H. now contradiction H.
      * intros _. unfold pageCount.
        rewrite !filter_app, Hheader, Hp. cbn [app filter isAddPage].
        split; [reflexivity|]. split; [|split].
        -- intros k s Hk. rewrite nth_error_app2 by lia.
           rewrite Hhlen. replace (17 + k - 17)%nat with k by lia.
           rewrite nth_error_app1.
           ++ exact (Hnth k s Hk).
           ++ rewrite Hlen. apply nth_error_Some. fold n. congruence.
        -- rewrite nth_error_app2 by lia. rewrite Hhlen.
           rewrite nth_error_app2 by lia. rewrite Hlen.
           replace (17 + n + 2 - 17 - n)%nat with 2%nat by lia.
           cbn. do 2 f_equal. lia.
        -- rewrite !length_app, Hhlen, Hlen. cbn. lia.
  - split; [|lia]. split; [lia|]. intros _.
    assert (Hl : l <> []).
    { intros E. subst n. rewrite E in Hover. cbn in Hover. lia. }
    apply in_or_app. right. apply in_or_app. left.
    now apply subjectCalls_overflows.
Qed.

Lemma subjectCalls_no_save (l : list Subject) (index y : nat) :
  filter isSave (fst (subjectCalls numberToString index y l)) = [].
Proof.
  revert index y. induction l as [|s rest IH]; intros index y; [reflexivity|].
  cbn [subjectCalls].
  destruct (270 <? y)%nat;
    match goal with
    | |- context [subjectCalls numberToString (S index) ?y' rest] =>
        specialize (IH (S index) y');
        destruct (subjectCalls numberToString (S index) y' rest)
    end; exact IH.
Qed.

(** [doc.save] is the last call, and the only one of its kind. *)
Lemma pdfCalls_save_last (env : Environment) (r : Result)
    (l : list Subject) :
  exists body,
    pdfCalls numberToString env r l = (body ++ [Save (fileName env)])%list
    /\ filter isSave body = [].
Proof.
  rewrite pdfCalls_parts.
  eexists. split.
  - rewrite !app_assoc. reflexivity.
  - rewrite !filter_app, subjectCalls_no_save.
    destruct (250 <? _)%nat; reflexivity.
Qed.

Lemma filter_firstn_nil {A : Type} (f : A -> bool) (k : nat) (l : list A) :
  filter f l = [] -> filter f (firstn k l) = [].
Proof.
  revert k. induction l as [|a l IH]; intros k H; [now destruct k|].
  destruct k as [|k]; [reflexivity|]. cbn in *.
  destruct (f a); [discriminate | now apply IH].
Qed.

(** X15.  Whatever the export does, a file is saved only by an export that
    completes: if the calls made include [doc.save], it is the last call,
    it is made once, with the name "GPA_Results_<date>.pdf", the export is
    reported complete and the overlay is closed; otherwise the export is
    reported failed and the state is as before. *)
Theorem file_saved_only_by_complete_export (env : Environment) (st : State)
    (ops : list PdfOp) :
  In (EPdf ops) (snd (exportToPDF numberToString env st)) ->
  (filter isSave ops = []
   /\ snd (exportToPDF numberToString env st)
      = [ EPdf ops; EConsoleError "Error generating PDF:";
          EToast exportErrorToast ]
   /\ fst (exportToPDF numberToString env st) = st)
  \/ (filter isSave ops = [Save (fileName env)]
      /\ last ops NewDocument = Save (fileName env)
      /\ snd (exportToPDF numberToString env st)
         = [EPdf ops; EToast exportCompleteToast]
      /\ fst (exportToPDF numberToString env st) = setShowModal false st).
Proof.
  unfold exportToPDF. destruct (result st) as [r|]; [|intros []].
  destruct (pdfCalls_save_last env r (subjects st)) as [body [Hcalls Hbody]].
  assert (Hdone :
    forall ops',
      In (EPdf ops')
         [EPdf (pdfCalls numberToString env r (subjects st));
          EToast exportCompleteToast] ->
      filter isSave ops' = [Save (fileName env)]
      /\ last ops' NewDocument = Save (fileName env)
      /\ [EPdf (pdfCalls numberToString env r (subjects st));
          EToast exportCompleteToast]
         = [EPdf ops'; EToast exportCompleteToast]).
  { intros ops' [H|[H|[]]]; [|discriminate]. injection H as <-.
    rewrite Hcalls, filter_app, Hbody, last_last. repeat split. }
  destruct (jsPdfThrowsAt env) as [k|].
  - destruct (Nat.ltb_spec k
                (List.length (pdfCalls numberToString env r (subjects st))))
      as [Hk|_]; cbn [fst snd].
    + intros [H|[H|[H|[]]]]; try discriminate. injection H as <-.
      left. repeat split.
      rewrite Hcalls in *. rewrite length_app in Hk. cbn in Hk.
      rewrite firstn_app.
      replace (k - List.length body)%nat with 0%nat by lia.
      cbn [firstn]. rewrite app_nil_r. now apply filter_firstn_nil.
    + intros H. right. destruct (Hdone ops H) as [H1 [H2 H3]].
      repeat split; assumption.
  - cbn [fst snd]. intros H. right. destruct (Hdone ops H) as [H1 [H2 H3]].
    repeat split; assumption.
Qed.

End Document.

Lemma pdf_page_break_from_14_subjects_witness :
  (List.length Sample.filled <= 13)%nat
  /\ pageCount (pdfCalls Sample.numberToString Sample.today
                  (mkResult (311 # 90) "B" "Good") Sample.filled) = 1%nat
  /\ nth_error (pdfCalls Sample.numberToString Sample.today
                  (mkResult (311 # 90) "B" "Good") Sample.filled) 18
     = Some (Text "2. Physics: 82/100 (3 credit hours)" 30 130).
Proof.
  assert (Hshort : (List.length Sample.filled <= 13)%nat) by (cbn; lia).
  pose proof (pdf_page_break_from_14_subjects Sample.numberToString
                Sample.today (mkResult (311 # 90) "B" "Good") Sample.filled)
    as H.
  cbv zeta in H. destruct H as [_ H].
  destruct (H Hshort) as [Hpages [Hline _]].
  split; [exact Hshort | split; [exact Hpages|]].
  exact (Hline 1%nat (mkSubject "2" "Physics" 82 3) eq_refl).
Defined.

Lemma file_saved_only_by_complete_export_witness :
  In (EPdf [NewDocument; SetFont "helvetica"])
     (snd (exportToPDF Sample.numberToString Sample.brokenPdf
             Sample.resultShownState))
  /\ filter isSave [NewDocument; SetFont "helvetica"] = []
  /\ fst (exportToPDF Sample.numberToString Sample.brokenPdf
            Sample.resultShownState) = Sample.resultShownState.
Proof.
  assert (Hin : In (EPdf [NewDocument; SetFont "helvetica"])
                   (snd (exportToPDF Sample.numberToString Sample.brokenPdf
                           Sample.resultShownState)))
    by (left; reflexivity).
  split; [exact Hin|].
  destruct (file_saved_only_by_complete_export Sample.numberToString
              Sample.brokenPdf Sample.resultShownState _ Hin)
    as [[Hnone [_ Hst]]|[Hsave _]].
  - split; [exact Hnone | exact Hst].
  - discriminate Hsave.
Defined.

End PdfFacts.

(** ** What the component exports *)

Module ExportedFacts.
Import GPACalculator Pdf.

Section App.

Variable calculateGPA : list Subject -> number.
Variable getGPAPercentage : number -> number.
Variable getLetterGrade : number -> string.
Variable getRemarks : number -> string.
Variable numberToString : number -> string.

(** X16.  No export the component performs starts a second page: in every
    reachable state there are at most eight subjects, and the calls made
    for them, completed or cut short by an exception, contain no
    [addPage]. *)
Theorem exported_document_has_one_page (env : Environment) (st : State)
    (ops : list PdfOp) :
  reachable calculateGPA getGPAPercentage getLetterGrade getRemarks
    numberToString st ->
  In (EPdf ops) (snd (exportToPDF numberToString env st)) ->
  (List.length (subjects st) <= 8)%nat
  /\ pageCount ops = 1%nat
  /\ ~ In AddPage ops.
Proof.
  intros Hreach Hin.
  assert (Hlen : (List.length (subjects st) <= 8)%nat).
  { destruct (UiFacts.reachable_count_shape _ _ _ _ _ st Hreach)
      as [[_ Hs]|[n [_ [Hn Hl]]]].
    - rewrite Hs. cbn. lia.
    - rewrite Hl. cbn in Hn. lia. }
  assert (Hnone : filter isAddPage ops = []).
  { unfold exportToPDF in Hin. destruct (result st) as [r|]; [|destruct Hin].
    pose proof (PdfFacts.pdfCalls_short_one_page numberToString env r
                  (subjects st) ltac:(lia)) as Hcalls.
    destruct (jsPdfThrowsAt env) as [k|].
    - destruct (k <? _)%nat; cbn [snd] in Hin.
      + destruct Hin as [H|[H|[H|[]]]]; try discriminate.
        injection H as <-. now apply PdfFacts.filter_firstn_nil.
      + destruct Hin as [H|[H|[]]]; [|discriminate]. now injection H as <-.
    - cbn [snd] in Hin.
      destruct Hin as [H|[H|[]]]; [|discriminate]. now injection H as <-. }
  split; [exact Hlen|]. split.
  - unfold pageCount. now rewrite Hnone.
  - intros H. apply PdfFacts.In_isAddPage in H. contradiction.
Qed.

End App.

Lemma exported_document_has_one_page_witness :
  In (EPdf (pdfCalls Sample.numberToString Sample.today
              (mkResult (311 # 90) "B" "Good") Sample.filled))
     (snd (exportToPDF Sample.numberToString Sample.today
             Sample.resultShownState))
  /\ pageCount (pdfCalls Sample.numberToString Sample.today
                  (mkResult (311 # 90) "B" "Good") Sample.filled) = 1%nat.
Proof.
  assert (Hin : In (EPdf (pdfCalls Sample.numberToString Sample.today
                            (mkResult (311 # 90) "B" "Good") Sample.filled))
                   (snd (exportToPDF Sample.numberToString Sample.today
                           Sample.resultShownState)))
    by (left; reflexivity).
  split; [exact Hin|].
  destruct (exported_document_has_one_page Sample.calculateGPA
              Sample.getGPAPercentage Sample.getLetterGrade Sample.getRemarks
              Sample.numberToString Sample.today Sample.resultShownState _
              (UiFacts.uiReachable_reachable _ _ _ _ _ _
                 UiFacts.resultShown_uiReachable) Hin)
    as [_ [Hpages _]].
  exact Hpages.
Defined.

End ExportedFacts.

(** ** Properties of the confetti animation *)

Module ConfettiFacts.
Import Confetti.

Lemma frames_shape (endTime : nat) (clock : list nat) :
  List.length (filter isBurst (frames endTime clock))
  = (3 * framesDrawn endTime clock)%nat
  /\ (Exists (fun now => (endTime < now)%nat) clock
      -> exists before,
           frames endTime clock = (before ++ [RemoveCanvas])%list
           /\ filter isRemove before = [])
  /\ (~ Exists (fun now => (endTime < now)%nat) clock
      -> filter isRemove (frames endTime clock) = []).
Proof.
  induction clock as [|now later [IHb [IHr IHn]]].
  - split; [reflexivity|]. split; [intros H; inversion H | reflexivity].
  - cbn [frames framesDrawn].
    destruct (Nat.ltb_spec endTime now) as [Hpast|Hin].
    + repeat split.
      * intros _. exists []. now split.
      * intros H. contradiction H. now left.
    + repeat split.
      * cbn [frameBursts app filter isBurst List.length]. lia.
      * intros H. inversion H as [? ? Hnow|? ? Hlater]; subst; [lia|].
        destruct (IHr Hlater) as [before [E Hb]].
        exists (frameBursts ++ RequestFrame :: before)%list. split.
        -- rewrite E. now rewrite <- app_assoc.
        -- exact Hb.
      * intros H. cbn [frameBursts app filter isRemove]. apply IHn.
        intros Hlater. apply H. now right.
Qed.

(** X17.  [triggerConfetti] does nothing below a gpa of 3.  From 3 on it
    appends its canvas first, draws three bursts in each frame that runs
    within a second of the start, and removes the canvas at the first frame
    after that second: once, as the last thing it does, and only if such a
    frame comes. *)
Theorem confetti_canvas_is_removed_once (gpa : number) (start first : nat)
    (later : list nat) :
  let ops := run gpa start first later in
  let endTime := (start + duration)%nat in
  (gpa < 3 -> ops = [])
  /\ (3 <= gpa ->
      hd_error ops = Some AppendCanvas
      /\ List.length (filter isBurst ops)
         = (3 * framesDrawn endTime (first :: later))%nat
      /\ (Exists (fun now => (endTime < now)%nat) (first :: later) ->
          exists before,
            ops = (before ++ [RemoveCanvas])%list
            /\ filter isRemove before = [])
      /\ (~ Exists (fun now => (endTime < now)%nat) (first :: later) ->
          filter isRemove ops = [])).
Proof.
  intros ops endTime. subst ops. unfold run. fold endTime.
  destruct (frames_shape endTime (first :: later)) as [Hb [Hr Hn]].
  split.
  - intros H. destruct (Qle_bool 3 gpa) eqn:E; [|reflexivity].
    apply Qle_bool_iff in E. exfalso. revert E. now apply Qlt_not_le.
  - intros H. apply Qle_bool_iff in H. rewrite H.
    repeat split.
    + exact Hb.
    + intros He. destruct (Hr He) as [before [E Hbefore]].
      exists (AppendCanvas :: before). rewrite E. now split.
    + intros He. cbn [filter isRemove]. now apply Hn.
Qed.

Lemma confetti_canvas_is_removed_once_witness :
  run (311 # 90) 0 0 [400; 900; 1016; 1033]%nat
  = [ AppendCanvas;
      Burst 3 60 55; Burst 3 120 55; Burst 2 90 45; RequestFrame;
      Burst 3 60 55; Burst 3 120 55; Burst 2 90 45; RequestFrame;
      Burst 3 60 55; Burst 3 120 55; Burst 2 90 45; RequestFrame;
      RemoveCanvas ]
  /\ run (299 # 100) 0 0 [400]%nat = []
  /\ exists before,
       run (311 # 90) 0 0 [400; 900; 1016; 1033]%nat
       = (before ++ [RemoveCanvas])%list
       /\ filter isRemove before = [].
Proof.
  pose proof (confetti_canvas_is_removed_once (311 # 90) 0 0
                [400; 900; 1016; 1033]%nat) as H.
  pose proof (confetti_canvas_is_removed_once (299 # 100) 0 0
                [400]%nat) as Hlow.
  cbv zeta in H, Hlow.
  destruct H as [_ H]. destruct Hlow as [Hlow _].
  assert (Hge : 3 <= 311 # 90) by discriminate.
  destruct (H Hge) as [_ [_ [Hremoved _]]].
  split; [reflexivity | split; [apply Hlow; reflexivity|]].
  apply Hremoved.
  do 3 apply Exists_cons_tl. apply Exists_cons_hd.
  unfold duration. lia.
Defined.

End ConfettiFacts.
